(** * VtonEval: the pairing, resizing and metric-averaging pipeline of [eval.py]

    A shallow embedding of [src/eval.py] and the properties of its
    filename matching ([EvalDataset.extract_id_from_filename],
    [EvalDataset.prepare_data]), of its geometry ([EvalDataset.resize],
    [EvalDataset.__getitem__], [copy_resize_gt]) and of the batch loop of
    the paired metrics ([psnr], [ssim], [lpips]).

    Python values are modelled as follows.
    - A [str] is the list of its Unicode code points ([pystr]).
    - An [int] is a [Z]; a [dict] is a [gmap]; a [list] is a [list].
    - A call that may raise returns a [result]: [Ok v] or [Raise e].
    - Pixel data, the resampling filter and the metric collaborators are
      external: they are parameters of the definitions that use them. *)

From Stdlib Require Import ZArith NArith QArith Qabs Lia Ascii String.
From stdpp Require Import gmap strings list fin_maps pretty.

Set Default Proof Using "Type".

(* ===================================================================== *)
(** * Part I: the program *)
(* ===================================================================== *)

(** ** Exceptions and fallible calls *)

Inductive exn : Type :=
  | AssertionError
  | ZeroDivisionError
  | IndexError
  | FileNotFoundError
  | IsADirectoryError
  | UnidentifiedImageError
  | ValueError.

Inductive result (A : Type) : Type :=
  | Ok (a : A)
  | Raise (e : exn).
Arguments Ok {A} a.
Arguments Raise {A} e.

#[global] Instance result_ret : MRet result := fun A a => Ok a.
#[global] Instance result_bind : MBind result := fun A B k r =>
  match r with
  | Ok a => k a
  | Raise e => Raise e
  end.

Definition succeeds {A : Type} (r : result A) : Prop := ∃ a, r = Ok a.

(** ** Python strings *)

(** A Python [str] is a sequence of Unicode code points. *)
Abbreviation pystr := (list N).

(** A literal written in the source: the code points of an ASCII string. *)
Definition lit (s : string) : pystr :=
  N_of_ascii <$> list_ascii_of_string s.

(** [str.isdigit]: the characters whose Unicode property Numeric_Type is
    Decimal or Digit (CPython 3.11, Unicode 14.0), as inclusive ranges of
    code points.  Besides the decimal digits of every script it holds the
    superscript, subscript and circled digits. *)
Definition isdigit_ranges : list (N * N) :=
  [(48, 57); (178, 179); (185, 185); (1632, 1641); (1776, 1785); (1984,
   1993); (2406, 2415); (2534, 2543); (2662, 2671); (2790, 2799); (2918,
   2927); (3046, 3055); (3174, 3183); (3302, 3311); (3430, 3439); (3558,
   3567); (3664, 3673); (3792, 3801); (3872, 3881); (4160, 4169); (4240,
   4249); (4969, 4977); (6112, 6121); (6160, 6169); (6470, 6479); (6608,
   6618); (6784, 6793); (6800, 6809); (6992, 7001); (7088, 7097); (7232,
   7241); (7248, 7257); (8304, 8304); (8308, 8313); (8320, 8329); (9312,
   9320); (9332, 9340); (9352, 9360); (9450, 9450); (9461, 9469); (9471,
   9471); (10102, 10110); (10112, 10120); (10122, 10130); (42528, 42537);
   (43216, 43225); (43264, 43273); (43472, 43481); (43504, 43513); (43600,
   43609); (44016, 44025); (65296, 65305); (66720, 66729); (68160, 68163);
   (68912, 68921); (69216, 69224); (69714, 69722); (69734, 69743); (69872,
   69881); (69942, 69951); (70096, 70105); (70384, 70393); (70736, 70745);
   (70864, 70873); (71248, 71257); (71360, 71369); (71472, 71481); (71904,
   71913); (72016, 72025); (72784, 72793); (73040, 73049); (73120, 73129);
   (92768, 92777); (92864, 92873); (93008, 93017); (120782, 120831);
   (123200, 123209); (123632, 123641); (125264, 125273); (127232, 127242);
   (130032, 130041)]%N.

Definition isdigit (c : N) : bool :=
  existsb (fun r => (fst r <=? c)%N && (c <=? snd r)%N) isdigit_ranges.

(** The ten decimal digits [0] .. [9]. *)
Definition is_decimal_digit (c : N) : bool :=
  (48 <=? c)%N && (c <=? 57)%N.

(** [s.startswith(p)]. *)
Fixpoint startswith (p s : pystr) : bool :=
  match p, s with
  | [], _ => true
  | _ :: _, [] => false
  | a :: p', b :: s' => (a =? b)%N && startswith p' s'
  end.

(** [needle in hay] on strings: [needle] occurs at some position. *)
Fixpoint py_in (needle hay : pystr) : bool :=
  startswith needle hay ||
  match hay with
  | [] => false
  | _ :: hay' => py_in needle hay'
  end.

(** [s.split(sep)] for a one-character separator: the pieces between the
    occurrences of [sep], never an empty list. *)
Fixpoint str_split (sep : N) (s : pystr) : list pystr :=
  match s with
  | [] => [[]]
  | c :: s' =>
      if (c =? sep)%N then [] :: str_split sep s'
      else match str_split sep s' with
           | piece :: pieces => (c :: piece) :: pieces
           | [] => [[c]]
           end
  end.

(** [l[0]]. *)
Definition item0 {A : Type} (l : list A) : result A :=
  match l with
  | a :: _ => Ok a
  | [] => Raise IndexError
  end.

(** [s[i:j]] for [0 <= i <= j]: slicing clamps to the end of the string. *)
Definition slice {A : Type} (s : list A) (i j : nat) : list A :=
  take (j - i) (drop i s).

Definition dot : N := 46%N.
Definition tag : pystr := lit "inshop".

(** ** IdExtractor: [EvalDataset.extract_id_from_filename] *)

(** The loop [for i, c in enumerate(filename): if c.isdigit(): start_i = i;
    break], started at index [i]: [None] is the initial [start_i = None]. *)
Fixpoint first_digit_from (i : nat) (s : pystr) : option nat :=
  match s with
  | [] => None
  | c :: s' => if isdigit c then Some i else first_digit_from (S i) s'
  end.

Definition extract_id_from_filename (filename : pystr) : result pystr :=
  if py_in tag filename then
    item0 (str_split dot filename)
  else
    match first_digit_from 0 filename with
    | None => Raise AssertionError
    | Some start_i => Ok (slice filename start_i (start_i + 8))
    end.

(** ** [os.path.splitext]

    [genericpath._splitext] with [sep = "/"] and [extsep = "."]: the
    extension starts at the last dot of the last path component, unless
    only dots precede it there. *)

Fixpoint rfind_from (c : N) (i : nat) (s : pystr) (found : option nat)
  : option nat :=
  match s with
  | [] => found
  | d :: s' =>
      rfind_from c (S i) s' (if (d =? c)%N then Some i else found)
  end.

(** [s.rfind(c)]: [None] stands for [-1]. *)
Definition rfind (c : N) (s : pystr) : option nat := rfind_from c 0 s None.

Definition slash : N := 47%N.

Definition splitext (p : pystr) : pystr * pystr :=
  let filenameIndex :=
    match rfind slash p with Some sepIndex => S sepIndex | None => 0 end in
  match rfind dot p with
  | Some dotIndex =>
      if bool_decide (filenameIndex ≤ dotIndex) &&
         negb (forallb (N.eqb dot) (slice p filenameIndex dotIndex))
      then (take dotIndex p, drop dotIndex p)
      else (p, [])
  | None => (p, [])
  end.

(** The stem of a file name: the name with its extension stripped. *)
Definition stem (filename : pystr) : pystr := fst (splitext filename).

(** ** FileScanner: [scan_files_in_dir] *)

(** An [os.DirEntry]. *)
Record DirEntry : Type := { name : pystr; path : pystr }.

(** What [os.scandir] finds in a directory: regular files, directories
    with what they hold in turn, and entries that are neither. *)
#[warning="-register-all"]
Inductive node : Type :=
  | File (entry : DirEntry)
  | Dir (entry : DirEntry) (children : list node)
  | Other (entry : DirEntry).

(** [postfix is None or os.path.splitext(entry.path)[1] in postfix]. *)
Definition postfix_ok (postfix : option (list pystr)) (entry : DirEntry)
  : bool :=
  match postfix with
  | None => true
  | Some exts => bool_decide (snd (splitext (path entry)) ∈ exts)
  end.

(** The body of [scan_files_in_dir] for one entry of [os.scandir]; the
    progress bar is not modelled. *)
Fixpoint scan_entry (postfix : option (list pystr)) (n : node)
  : list DirEntry :=
  match n with
  | File entry => if postfix_ok postfix entry then [entry] else []
  | Dir _ children => flat_map (scan_entry postfix) children
  | Other _ => []
  end.

Definition scan_files_in_dir (directory : list node)
    (postfix : option (list pystr)) : list DirEntry :=
  flat_map (scan_entry postfix) directory.

Definition jpg_png : option (list pystr) := Some [lit ".jpg"; lit ".png"].

(** ** PairIndex: [EvalDataset.prepare_data] *)

(** A line of standard output: [print(f"Cannot find gt file for ...")]. *)
Inductive message : Type :=
  | CannotFindGt (pred_file : DirEntry).

(** The dict comprehension [{extract(file.name): file for file in
    gt_files}], evaluated in order from the entries gathered so far. *)
Fixpoint gt_dict_from (gt_dict : gmap pystr DirEntry)
    (gt_files : list DirEntry) : result (gmap pystr DirEntry) :=
  match gt_files with
  | [] => Ok gt_dict
  | file :: rest =>
      key ← extract_id_from_filename (name file);
      gt_dict_from (<[key := file]> gt_dict) rest
  end.

(** The loop over [pred_files], with [tuples] and the output so far. *)
Fixpoint pair_loop (gt_dict : gmap pystr DirEntry)
    (pred_files : list DirEntry) (tuples : list (pystr * pystr))
    (out : list message) : list message * result (list (pystr * pystr)) :=
  match pred_files with
  | [] => (out, Ok tuples)
  | pred_file :: rest =>
      match extract_id_from_filename (name pred_file) with
      | Raise e => (out, Raise e)
      | Ok pred_id =>
          match gt_dict !! pred_id with
          | None =>
              pair_loop gt_dict rest tuples (out ++ [CannotFindGt pred_file])
          | Some gt_file =>
              pair_loop gt_dict rest
                (tuples ++ [(path gt_file, path pred_file)]) out
          end
      end
  end.

(** [prepare_data], given what its two calls of [scan_files_in_dir]
    return: the printed lines and the list of (gt path, pred path). *)
Definition prepare_data (gt_files pred_files : list DirEntry)
  : list message * result (list (pystr * pystr)) :=
  match gt_dict_from ∅ gt_files with
  | Raise e => ([], Raise e)
  | Ok gt_dict => pair_loop gt_dict pred_files [] []
  end.

(** ** Images and tensors *)

(** A decoded [PIL.Image]: its size and its pixel buffer. *)
Record Image (Pixels : Type) : Type :=
  { width : Z; height : Z; pixels : Pixels }.
Arguments width {Pixels} _.
Arguments height {Pixels} _.
Arguments pixels {Pixels} _.

(** A tensor in channel-first layout (C x H x W) with its values. *)
Record Tensor (Values : Type) : Type :=
  { t_channels : Z; t_height : Z; t_width : Z; t_values : Values }.
Arguments t_channels {Values} _.
Arguments t_height {Values} _.
Arguments t_width {Values} _.
Arguments t_values {Values} _.

(** [self] of [EvalDataset]: the fields set by [__init__]. *)
Record EvalDataset : Type :=
  { gt_folder : pystr;
    pred_folder : pystr;
    self_height : Z;
    data : list (pystr * pystr) }.

(** [l[idx]] for a Python [int]: a negative index counts from the end. *)
Definition py_index {A : Type} (l : list A) (idx : Z) : result A :=
  let n := Z.of_nat (length l) in
  let i := if (idx <? 0)%Z then (idx + n)%Z else idx in
  if (0 <=? i)%Z && (i <? n)%Z then
    match l !! Z.to_nat i with
    | Some a => Ok a
    | None => Raise IndexError
    end
  else Raise IndexError.

Section ResizePolicy.
Context {Pixels Values : Type}.
(** The Lanczos filter of [Image.resize]: the pixels of the result. *)
Variable LANCZOS : Image Pixels → Z * Z → Pixels.
(** [Image.open(path)]: the image stored at [path], if it decodes. *)
Variable Image_open : pystr → result (Image Pixels).
(** [transforms.ToTensor()]: the number of channels and the values. *)
Variable to_tensor_channels : Image Pixels → Z.
Variable to_tensor_values : Image Pixels → Values.

(** [img.resize(size, Image.LANCZOS)]: an image of the size asked.  When
    the size asked is the size of the image, Pillow returns a copy; for any
    other size with a side below 1 it raises [ValueError] ("height and
    width must be > 0"). *)
Definition Image_resize (img : Image Pixels) (size : Z * Z)
  : result (Image Pixels) :=
  if bool_decide (size ≠ (width img, height img) ∧
                  (fst size < 1 ∨ snd size < 1)%Z)
  then Raise ValueError
  else Ok {| width := fst size; height := snd size;
             pixels := LANCZOS img size |}.

(** [EvalDataset.resize].  [w * self.height / h] is a float division and
    [int] truncates it toward zero; the quotient of two integers below
    [2^53] is rounded correctly, so the truncation is [Z.quot] for every
    image size that occurs.  Dividing by [h = 0] raises. *)
Definition resize (self : EvalDataset) (img : Image Pixels)
  : result (Image Pixels) :=
  let '(w, h) := (width img, height img) in
  if (h =? 0)%Z then Raise ZeroDivisionError
  else
    let new_w := (w * self_height self ÷ h)%Z in
    Image_resize img (new_w, self_height self).

Definition to_tensor (img : Image Pixels) : Tensor Values :=
  {| t_channels := to_tensor_channels img;
     t_height := height img;
     t_width := width img;
     t_values := to_tensor_values img |}.

(** [EvalDataset.__len__]. *)
Definition len (self : EvalDataset) : Z := Z.of_nat (length (data self)).

(** [EvalDataset.__getitem__]. *)
Definition getitem (self : EvalDataset) (idx : Z)
  : result (Tensor Values * Tensor Values) :=
  '(gt_path, pred_path) ← py_index (data self) idx;
  gt ← Image_open gt_path ≫= resize self;
  pred ← Image_open pred_path ≫= resize self;
  gt ← (if bool_decide (height gt ≠ self_height self)
        then resize self gt else Ok gt);
  pred ← (if bool_decide (height pred ≠ self_height self)
          then resize self pred else Ok pred);
  Ok (to_tensor gt, to_tensor pred).

(** [__getitem__] without its two conditional second resizes. *)
Definition getitem_single_resize (self : EvalDataset) (idx : Z)
  : result (Tensor Values * Tensor Values) :=
  '(gt_path, pred_path) ← py_index (data self) idx;
  gt ← Image_open gt_path ≫= resize self;
  pred ← Image_open pred_path ≫= resize self;
  Ok (to_tensor gt, to_tensor pred).
End ResizePolicy.

(** [EvalDataset.__init__]: both folders are scanned for [.jpg] and [.png]
    files and paired; [tree] gives what [os.scandir] finds below a folder.
    The result is the output printed and the dataset, unless pairing
    raised. *)
Definition EvalDataset_init (tree : pystr → list node)
    (gt_folder pred_folder : pystr) (height : Z)
  : list message * result EvalDataset :=
  let gt_files := scan_files_in_dir (tree gt_folder) jpg_png in
  let pred_files := scan_files_in_dir (tree pred_folder) jpg_png in
  let '(out, tuples) := prepare_data gt_files pred_files in
  (out, data ← tuples;
        Ok {| gt_folder := gt_folder; pred_folder := pred_folder;
              self_height := height; data := data |}).

(** The spec's rounding: an integer nearest to the quotient [a / b]. *)
Definition nearest_integer (n a b : Z) : Prop :=
  (Qabs (inject_Z n - (a # Z.to_pos b)) <= (1 # 2))%Q.

(** ** The bulk exact-resize pass: [copy_resize_gt] *)

Abbreviation bytes := (list Byte.byte).

(** An entry of a directory: a regular file with its bytes, or a
    sub-directory. *)
Inductive dirent : Type :=
  | RegularFile (content : bytes)
  | SubDirectory.

(** The file system, as far as [copy_resize_gt] reads and writes it: the
    directories it names, by the path string it names them with, each with
    the entries it holds, by name; [os.path.join(d, f)] is the entry [f] of
    the directory [d].  The map does not record that a directory is itself
    an entry of its parent: the properties below speak of the entries of
    the ground-truth folder and of the folder [f"{gt_folder}_{height}"],
    for a [gt_folder] whose last component is a name ([names_folder]), so
    that the two path strings name two directories, neither inside the
    other. *)
Abbreviation filesystem := (gmap pystr (gmap pystr dirent)).

(** [str(n)] for an [int]. *)
Definition str (n : Z) : pystr := lit (pretty n).

Section ExactResize.
Context {Pixels : Type}.
Variable LANCZOS : Image Pixels → Z * Z → Pixels.
(** Decoding the bytes of a file ([Image.open] and the load that
    [resize] forces), and encoding for [img.save], which chooses the
    format from the file name. *)
Variable decode : bytes → result (Image Pixels).
Variable encode : pystr → Image Pixels → result bytes.

(** [os.path.exists(folder)]. *)
Definition folder_exists (fs : filesystem) (folder : pystr) : bool :=
  bool_decide (is_Some (fs !! folder)).

(** [os.path.exists(os.path.join(folder, file))]. *)
Definition path_exists (fs : filesystem) (folder file : pystr) : bool :=
  match fs !! folder with
  | Some entries => bool_decide (is_Some (entries !! file))
  | None => false
  end.

(** [os.makedirs(folder, exist_ok=True)], seen from the directory it is
    asked for: an existing one is left alone, a missing one exists and is
    empty afterwards.  The parents it creates on the way are not
    recorded. *)
Definition makedirs (fs : filesystem) (folder : pystr) : filesystem :=
  match fs !! folder with
  | Some _ => fs
  | None => <[folder := ∅]> fs
  end.

(** [os.listdir(folder)]: the names of the entries, in the order the
    directory gives them. *)
Definition listdir (fs : filesystem) (folder : pystr)
  : result (list pystr) :=
  match fs !! folder with
  | Some entries => Ok (fst <$> map_to_list entries)
  | None => Raise FileNotFoundError
  end.

(** [Image.open(os.path.join(folder, file))]. *)
Definition Image_open_at (fs : filesystem) (folder file : pystr)
  : result (Image Pixels) :=
  match fs !! folder with
  | None => Raise FileNotFoundError
  | Some entries =>
      match entries !! file with
      | None => Raise FileNotFoundError
      | Some SubDirectory => Raise IsADirectoryError
      | Some (RegularFile content) => decode content
      end
  end.

(** [img.save(os.path.join(folder, file))]: the new file system, or the
    old one when nothing could be written. *)
Definition Image_save (fs : filesystem) (img : Image Pixels)
    (folder file : pystr) : filesystem * result unit :=
  match encode file img with
  | Raise e => (fs, Raise e)
  | Ok content =>
      match fs !! folder with
      | None => (fs, Raise FileNotFoundError)
      | Some entries =>
          match entries !! file with
          | Some SubDirectory => (fs, Raise IsADirectoryError)
          | _ => (<[folder := <[file := RegularFile content]> entries]> fs,
                  Ok ())
          end
      end
  end.

(** The loop over [os.listdir(gt_folder)]; [written] lists the files
    saved so far, as (folder, file). *)
Fixpoint copy_loop (gt_folder new_folder : pystr) (height width : Z)
    (files : list pystr) (fs : filesystem) (written : list (pystr * pystr))
  : filesystem * list (pystr * pystr) * result unit :=
  match files with
  | [] => (fs, written, Ok ())
  | file :: rest =>
      if path_exists fs new_folder file then
        copy_loop gt_folder new_folder height width rest fs written
      else
        match Image_open_at fs gt_folder file with
        | Raise e => (fs, written, Raise e)
        | Ok img =>
            match Image_resize LANCZOS img (width, height) with
            | Raise e => (fs, written, Raise e)
            | Ok img =>
                match Image_save fs img new_folder file with
                | (fs, Raise e) => (fs, written, Raise e)
                | (fs, Ok _) =>
                    copy_loop gt_folder new_folder height width rest fs
                      (written ++ [(new_folder, file)])
                end
            end
        end
  end.

(** [copy_resize_gt]: the file system it leaves, the files it saved and
    the folder it returns. *)
Definition copy_resize_gt (fs : filesystem) (gt_folder : pystr)
    (height width : Z)
  : filesystem * list (pystr * pystr) * result pystr :=
  let new_folder := gt_folder ++ lit "_" ++ str height in
  let fs := if negb (folder_exists fs new_folder)
            then makedirs fs new_folder else fs in
  match listdir fs gt_folder with
  | Raise e => (fs, [], Raise e)
  | Ok files =>
      let '(fs, written, r) :=
        copy_loop gt_folder new_folder height width files fs [] in
      (fs, written, _ ← r; Ok new_folder)
  end.
End ExactResize.

(** ** MetricEngine: the batch loops of [psnr], [ssim] and [lpips] *)

(** The arithmetic of the scores, whatever the number format. *)
Class TorchNum (R : Type) : Type :=
  { of_int : Z → R;
    radd : R → R → R;
    rmul : R → R → R;
    rdiv : R → R → R }.

(** What the score variable holds: the [int] it is initialised with, a
    Python [float], or a tensor of one element. *)
Inductive pynum (R : Type) : Type :=
  | PyInt (z : Z)
  | PyFloat (r : R)
  | PyTensor (r : R).
Arguments PyInt {R} z.
Arguments PyFloat {R} r.
Arguments PyTensor {R} r.

(** A [torch.utils.data.DataLoader] with [shuffle=False]: [dataset] lists
    the items [dataset[0]], [dataset[1]], ... in index order. *)
Record DataLoader (T : Type) : Type :=
  { dataset : list (T * T);
    batch_size : nat;
    drop_last : bool }.
Arguments dataset {T} _.
Arguments batch_size {T} _.
Arguments drop_last {T} _.

(** The loader that [eval] builds: [DataLoader(dataset,
    batch_size=args.batch_size, shuffle=False, drop_last=False)]. *)
Definition eval_dataloader {T : Type} (items : list (T * T))
    (args_batch_size : nat) : DataLoader T :=
  {| dataset := items; batch_size := args_batch_size; drop_last := false |}.

(** [BatchSampler.__iter__]: items are appended to the current batch, a
    full batch is yielded, and the last, shorter batch is yielded unless
    [drop_last]. *)
Fixpoint batch_sampler {A : Type} (batch_size : nat) (drop_last : bool)
    (sampler batch : list A) : list (list A) :=
  match sampler with
  | [] => if bool_decide (0 < length batch) && negb drop_last
          then [batch] else []
  | idx :: rest =>
      let batch := batch ++ [idx] in
      if bool_decide (length batch = batch_size)
      then batch :: batch_sampler batch_size drop_last rest []
      else batch_sampler batch_size drop_last rest batch
  end.

(** The default collation: the items of a batch stacked along a new first
    dimension, ground truths and predictions apart. *)
Definition collate {T : Type} (items : list (T * T)) : list T * list T :=
  (fst <$> items, snd <$> items).

(** [for gt, pred in dataloader]. *)
Definition DataLoader_iter {T : Type} (dataloader : DataLoader T)
  : list (list T * list T) :=
  collate <$> batch_sampler (batch_size dataloader) (drop_last dataloader)
                (dataset dataloader) [].

Section MetricEngine.
Context {R : Type} `{TorchNum R} {T : Type}.
(** The three metric objects, called on (first, second) argument. *)
Variable PeakSignalNoiseRatio : list T → list T → R.
Variable StructuralSimilarityIndexMeasure : list T → list T → R.
Variable LearnedPerceptualImagePatchSimilarity : list T → list T → R.
(** [t * k] and [t - k] on a batch tensor. *)
Variable tensor_mul tensor_sub : list T → Z → list T.

(** [score + t] for a tensor [t]. *)
Definition py_add (score : pynum R) (t : R) : pynum R :=
  match score with
  | PyInt z => PyTensor (radd (of_int z) t)
  | PyFloat r => PyTensor (radd r t)
  | PyTensor r => PyTensor (radd r t)
  end.

(** [score / n] for an [int] [n]. *)
Definition py_truediv (score : pynum R) (n : Z) : result (pynum R) :=
  match score with
  | PyInt z =>
      if (n =? 0)%Z then Raise ZeroDivisionError
      else Ok (PyFloat (rdiv (of_int z) (of_int n)))
  | PyFloat r =>
      if (n =? 0)%Z then Raise ZeroDivisionError
      else Ok (PyFloat (rdiv r (of_int n)))
  | PyTensor r => Ok (PyTensor (rdiv r (of_int n)))
  end.

Definition psnr (dataloader : DataLoader T) : result (pynum R) :=
  let psnr_score :=
    foldl (fun psnr_score '(gt, pred) =>
             let batch_size := Z.of_nat (length gt) in
             py_add psnr_score
               (rmul (PeakSignalNoiseRatio pred gt) (of_int batch_size)))
          (PyInt 0) (DataLoader_iter dataloader) in
  py_truediv psnr_score (Z.of_nat (length (dataset dataloader))).

Definition ssim (dataloader : DataLoader T) : result (pynum R) :=
  let ssim_score :=
    foldl (fun ssim_score '(gt, pred) =>
             let batch_size := Z.of_nat (length gt) in
             py_add ssim_score
               (rmul (StructuralSimilarityIndexMeasure pred gt)
                  (of_int batch_size)))
          (PyInt 0) (DataLoader_iter dataloader) in
  py_truediv ssim_score (Z.of_nat (length (dataset dataloader))).

Definition lpips (dataloader : DataLoader T) : result (pynum R) :=
  let score :=
    foldl (fun score '(gt, pred) =>
             let batch_size := Z.of_nat (length gt) in
             let gt := tensor_sub (tensor_mul gt 2) 1 in
             let pred := tensor_sub (tensor_mul pred 2) 1 in
             py_add score
               (rmul (LearnedPerceptualImagePatchSimilarity gt pred)
                  (of_int batch_size)))
          (PyInt 0) (DataLoader_iter dataloader) in
  py_truediv score (Z.of_nat (length (dataset dataloader))).

(** The spec's batch-weighted running average of per-batch values, each
    with the size of its batch: the accumulator starts at zero and adds
    value times size, the result divides it by the number of samples. *)
Definition accumulate (batches : list (R * Z)) : R :=
  foldl (fun accumulator '(value, size) =>
           radd accumulator (rmul value (of_int size)))
        (of_int 0) batches.

Definition batch_weighted_average (batches : list (R * Z)) : R :=
  rdiv (accumulate batches) (of_int (foldr Z.add 0%Z (snd <$> batches))).
End MetricEngine.

(** Exact rational arithmetic, to run the definitions on a worked input.
    Torch computes in float32: the properties are stated for every
    arithmetic, and none for this instance alone. *)
#[global] Instance Q_TorchNum : TorchNum Q :=
  {| of_int := inject_Z; radd := Qplus; rmul := Qmult; rdiv := Qdiv |}.

(** ** Notions of the specification *)

(** The spec's scan for "the first decimal digit": the index of the first
    of the characters [0] .. [9]. *)
Fixpoint first_decimal_digit_from (i : nat) (s : pystr) : option nat :=
  match s with
  | [] => None
  | c :: s' =>
      if is_decimal_digit c then Some i else first_decimal_digit_from (S i) s'
  end.

Definition first_decimal_digit (s : pystr) : option nat :=
  first_decimal_digit_from 0 s.

(** The Pair that a ground-truth mapping gives a prediction file. *)
Definition pair_of (gt_dict : gmap pystr DirEntry) (pred_file : DirEntry)
  : option (pystr * pystr) :=
  match extract_id_from_filename (name pred_file) with
  | Ok pred_id =>
      (fun gt_file => (path gt_file, path pred_file)) <$> gt_dict !! pred_id
  | Raise _ => None
  end.

(** A file whose name one of the two conventions accepts. *)
Definition recognised (file : DirEntry) : Prop :=
  succeeds (extract_id_from_filename (name file)).

(** ** Worked inputs *)

(** [SUPERSCRIPT TWO], U+00B2: [str.isdigit] is true of it, and it is no
    decimal digit ([str.isdecimal] is false of it). *)
Definition superscript_two : N := 178%N.

(** ["v²_00012345.png"] and ["².png"]. *)
Definition name_v2 : pystr :=
  lit "v" ++ [superscript_two] ++ lit "_00012345.png".
Definition name_2 : pystr := [superscript_two] ++ lit ".png".

(** A file [name] in the folder [folder]. *)
Definition entry_in (folder name : string) : DirEntry :=
  {| name := lit name; path := lit folder ++ [slash] ++ lit name |}.

(** Ground truths with the keys A = 00000001 and B = 00000002, predictions
    with the keys A and C = 00000003, and a second ground truth with the
    key A. *)
Definition gt_A : DirEntry := entry_in "gt" "a_00000001.jpg".
Definition gt_B : DirEntry := entry_in "gt" "b_00000002.jpg".
Definition gt_A' : DirEntry := entry_in "gt" "z_00000001.png".
Definition pred_A : DirEntry := entry_in "pred" "out_00000001_x.png".
Definition pred_C : DirEntry := entry_in "pred" "out_00000003_x.png".
Definition key_A : pystr := lit "00000001".

(** Images without pixel data: a filter, two photographs of different
    aspect ratios, and a dataset of target height 512 that pairs them. *)
Definition no_pixels : Image unit → Z * Z → unit := fun _ _ => tt.
Definition photo_768x1024 : Image unit :=
  {| width := 768; height := 1024; pixels := tt |}.
Definition photo_1000x667 : Image unit :=
  {| width := 1000; height := 667; pixels := tt |}.
Definition photo_384x512 : Image unit :=
  {| width := 384; height := 512; pixels := tt |}.
Definition open_photos (path : pystr) : result (Image unit) :=
  if bool_decide (path = lit "gt/a_00000001.jpg") then Ok photo_768x1024
  else if bool_decide (path = lit "pred/out_00000001_x.png")
       then Ok photo_1000x667
       else Raise FileNotFoundError.
Definition dataset_512 : EvalDataset :=
  {| gt_folder := lit "gt"; pred_folder := lit "pred"; self_height := 512;
     data := [(lit "gt/a_00000001.jpg", lit "pred/out_00000001_x.png")] |}.

(** A codec that keeps the bytes of a file as its pixels, and a folder
    ["gt"] of two files with no folder ["gt_512"] beside it yet. *)
Definition raw_decode (content : bytes) : result (Image bytes) :=
  Ok {| width := 2; height := 2; pixels := content |}.
Definition raw_encode (file : pystr) (img : Image bytes) : result bytes :=
  Ok (pixels img).
Definition raw_filter (img : Image bytes) (size : Z * Z) : bytes :=
  pixels img.
Definition fs_gt : filesystem :=
  {[ lit "gt" :=
       {[ lit "a_00000001.jpg" := RegularFile [Byte.x01; Byte.x02];
          lit "b_00000002.jpg" := RegularFile [Byte.x03] ]} ]}.

(** The first pass of [copy_resize_gt] on that folder. *)
Definition first_pass : filesystem * list (pystr * pystr) * result pystr :=
  copy_resize_gt raw_filter raw_decode raw_encode fs_gt (lit "gt") 512 384.

(** Thirteen samples in batches of ten, and a metric whose value is 0.8 on
    a batch of ten and 0.5 on any other. *)
Definition thirteen : DataLoader nat :=
  eval_dataloader ((fun i => (i, i)) <$> seq 0 13) 10.
Definition metric_08_05 (first second : list nat) : Q :=
  if bool_decide (length first = 10) then 8 # 10 else 5 # 10.
Definition no_scaling (t : list nat) (k : Z) : list nat := t.


(** ** The rest of the file: the tree that is scanned, the orchestrator
    and the entry point *)

(** The regular files below a directory, at any depth. *)
Inductive file_below : DirEntry → list node → Prop :=
  | file_here (entry : DirEntry) (directory : list node) :
      File entry ∈ directory → file_below entry directory
  | file_deeper (entry sub : DirEntry) (children directory : list node) :
      Dir sub children ∈ directory → file_below entry children →
      file_below entry directory.

(** [s.endswith(suffix)]. *)
Definition endswith (s suffix : pystr) : bool :=
  bool_decide (length suffix ≤ length s ∧
               drop (length s - length suffix) s = suffix).

(** The entry point on each folder argument: [if folder.endswith("/"):
    folder = folder[:-1]]. *)
Definition strip_trailing_slash (folder : pystr) : pystr :=
  if endswith folder (lit "/") then take (length folder - 1) folder
  else folder.

Section Orchestrator.
Context {Pixels : Type}.
Variable LANCZOS : Image Pixels → Z * Z → Pixels.
Variable decode : bytes → result (Image Pixels).
Variable encode : pystr → Image Pixels → result bytes.
(** What [Image.open] reads of a file before any pixel is loaded: the
    size (width, height) in its header. *)
Variable Image_size : bytes → result (Z * Z).

(** [Image.open(os.path.join(folder, file))], of which [eval] reads the
    size only. *)
Definition Image_size_at (fs : filesystem) (folder file : pystr)
  : result (Z * Z) :=
  match fs !! folder with
  | None => Raise FileNotFoundError
  | Some entries =>
      match entries !! file with
      | None => Raise FileNotFoundError
      | Some SubDirectory => Raise IsADirectoryError
      | Some (RegularFile content) => Image_size content
      end
  end.

(** The first block of [eval]: the first listed file of each folder is
    opened, and when the two heights differ the ground-truth folder is
    resized to the size of the prediction sample and replaced by the new
    folder.  The result is the file system, the files saved, and the
    ground-truth folder and the height that the dataset is built with; the
    two title lines printed are left out. *)
Definition eval_gt_folder (fs : filesystem) (gt_folder pred_folder : pystr)
  : filesystem * list (pystr * pystr) * result (pystr * Z) :=
  match
    (pred_sample ← listdir fs pred_folder ≫= item0;
     gt_sample ← listdir fs gt_folder ≫= item0;
     img ← Image_size_at fs pred_folder pred_sample;
     gt_img ← Image_size_at fs gt_folder gt_sample;
     Ok (img, gt_img))
  with
  | Raise e => (fs, [], Raise e)
  | Ok (img, gt_img) =>
      if bool_decide (snd img ≠ snd gt_img) then
        let '(fs, written, r) :=
          copy_resize_gt LANCZOS decode encode fs gt_folder
            (snd img) (fst img) in
        (fs, written, new_folder ← r; Ok (new_folder, snd img))
      else (fs, [], Ok (gt_folder, snd img))
  end.
End Orchestrator.


(** A folder with a picture, a text file, a sub-folder with two pictures,
    one of them with an upper-case extension, and a socket. *)
Definition tree_gt : list node :=
  [File (entry_in "gt" "a_00000001.jpg");
   File (entry_in "gt" "notes.txt");
   Dir (entry_in "gt" "more")
     [File (entry_in "gt/more" "b_00000002.png");
      File (entry_in "gt/more" "c_00000003.JPG")];
   Other (entry_in "gt" "socket")].


(** A dataset of target height 300 whose pair has two images of the same
    aspect ratio, 768 x 1024 and 384 x 512. *)
Definition open_same_ratio (path : pystr) : result (Image unit) :=
  if bool_decide (path = lit "gt/a_00000001.jpg") then Ok photo_768x1024
  else if bool_decide (path = lit "pred/out_00000001_x.png")
       then Ok photo_384x512
       else Raise FileNotFoundError.
Definition dataset_300 : EvalDataset :=
  {| gt_folder := lit "gt"; pred_folder := lit "pred"; self_height := 300;
     data := [(lit "gt/a_00000001.jpg", lit "pred/out_00000001_x.png")] |}.


(** The folder ["gt"] beside a folder ["gt_512"] left by an earlier pass
    that holds one of its two files already, with other bytes; and the
    folder ["gt"] with a sub-directory among its entries. *)
Definition fs_resume : filesystem :=
  {[ lit "gt" :=
       {[ lit "a_00000001.jpg" := RegularFile [Byte.x01; Byte.x02];
          lit "b_00000002.jpg" := RegularFile [Byte.x03] ]};
     lit "gt_512" :=
       {[ lit "a_00000001.jpg" := RegularFile [Byte.x09] ]} ]}.
Definition fs_subdir : filesystem :=
  {[ lit "gt" :=
       {[ lit "a_00000001.jpg" := RegularFile [Byte.x01; Byte.x02];
          lit "more" := SubDirectory ]} ]}.
Definition resumed_pass : filesystem * list (pystr * pystr) * result pystr :=
  copy_resize_gt raw_filter raw_decode raw_encode fs_resume (lit "gt") 512 384.


(** A header reader for the raw codec: the first byte of a file is the
    height of its image and the width is 2; and two folders whose first
    files have the heights 1 and 3. *)
Definition raw_size (content : bytes) : result (Z * Z) :=
  match content with
  | b :: _ => Ok (2%Z, Z.of_N (Byte.to_N b))
  | [] => Raise UnidentifiedImageError
  end.
Definition fs_eval : filesystem :=
  {[ lit "gt" := {[ lit "a_00000001.jpg" := RegularFile [Byte.x01] ]};
     lit "pred" := {[ lit "out_00000001.png" := RegularFile [Byte.x03] ]};
     lit "same" := {[ lit "out_00000001.png" := RegularFile [Byte.x01] ]};
     lit "empty" := ∅ ]}.

Definition redirected_eval
  : filesystem * list (pystr * pystr) * result (pystr * Z) :=
  eval_gt_folder raw_filter raw_decode raw_encode raw_size fs_eval
    (lit "gt") (lit "pred").


(** A dataset of target height 10 whose ground-truth image is 1 pixel wide
    and 1000 pixels high. *)
Definition photo_1x1000 : Image unit :=
  {| width := 1; height := 1000; pixels := tt |}.
Definition open_thin (path : pystr) : result (Image unit) :=
  if bool_decide (path = lit "gt/a_00000001.jpg") then Ok photo_1x1000
  else if bool_decide (path = lit "pred/out_00000001_x.png")
       then Ok photo_1000x667
       else Raise FileNotFoundError.
Definition dataset_10 : EvalDataset :=
  {| gt_folder := lit "gt"; pred_folder := lit "pred"; self_height := 10;
     data := [(lit "gt/a_00000001.jpg", lit "pred/out_00000001_x.png")] |}.


(** [os.path.basename]: what follows the last slash of a path. *)
Definition basename (p : pystr) : pystr :=
  match rfind slash p with
  | Some sepIndex => drop (S sepIndex) p
  | None => p
  end.

(** A folder path whose last component is a name: it is not empty, so the
    path does not end in a slash, and it is not ["."].  For such a path
    [f"{folder}_{height}"] names a folder beside it, not one inside it. *)
Definition names_folder (folder : pystr) : Prop :=
  basename folder ≠ [] ∧ basename folder ≠ lit ".".

(* ===================================================================== *)
(** * Part II: properties *)
(* ===================================================================== *)

(** ** Strings *)

Lemma startswith_spec (p s : pystr) :
  startswith p s = true ↔ ∃ r, s = p ++ r.
Proof.
  revert s. induction p as [|a p IH]; intros [|b s]; simpl.
  - split; [by exists [] | done].
  - split; [by exists (b :: s) | done].
  - split; [done | by intros [r Hr]].
  - rewrite andb_true_iff, N.eqb_eq, IH. split.
    + intros [-> [r ->]]. by exists r.
    + intros [r Hr]. simplify_eq/=. eauto.
Qed.

Lemma py_in_spec (needle hay : pystr) :
  py_in needle hay = true ↔ ∃ l r, hay = l ++ needle ++ r.
Proof.
  induction hay as [|c hay IH]; simpl.
  - rewrite orb_false_r, startswith_spec. split.
    + intros [r Hr]. by exists [], r.
    + intros [l [r Hr]]. symmetry in Hr.
      apply app_eq_nil in Hr as [-> [-> ->]%app_eq_nil]. by exists [].
  - rewrite orb_true_iff, startswith_spec, IH. split.
    + intros [[r Hr] | [l [r Hr]]].
      * by exists [], r.
      * exists (c :: l), r. by rewrite Hr.
    + intros [[|d l] [r Hr]]; simplify_eq/=; eauto.
Qed.

Lemma str_split_head (sep : N) (s : pystr) :
  ∃ piece pieces,
    str_split sep s = piece :: pieces ∧ (sep ∉ piece) ∧
    ((s = piece ∧ pieces = []) ∨ (∃ rest, s = piece ++ sep :: rest)).
Proof.
  induction s as [|c s IH]; simpl.
  - exists [], []. split_and!; [done | apply not_elem_of_nil | by left].
  - destruct IH as (piece & pieces & Hs & Hnot & Hform).
    destruct (N.eqb_spec c sep) as [-> | Hne].
    + eexists [], _. split_and!; [done | apply not_elem_of_nil |].
      right. by exists s.
    + rewrite Hs. exists (c :: piece), pieces. split_and!; [done | |].
      * intros [? | ?]%elem_of_cons; [by apply Hne | done].
      * destruct Hform as [[-> ->] | [rest ->]]; [by left | right].
        by exists rest.
Qed.

Lemma first_digit_from_None (i : nat) (s : pystr) :
  first_digit_from i s = None ↔ ∀ c, c ∈ s → isdigit c = false.
Proof.
  revert i. induction s as [|c s IH]; intros i; simpl.
  - split; [intros _ c Hc; by apply elem_of_nil in Hc | done].
  - destruct (isdigit c) eqn:Hc.
    + split; [done | intros Hall]. specialize (Hall c). rewrite Hc in Hall.
      discriminate Hall. by left.
    + rewrite IH. split.
      * intros Hall d [-> | Hd]%elem_of_cons; auto.
      * intros Hall d Hd. apply Hall. by right.
Qed.

Lemma first_digit_from_Some (i j : nat) (s : pystr) :
  first_digit_from i s = Some j →
  ∃ k c, j = i + k ∧ s !! k = Some c ∧ isdigit c = true ∧
         ∀ k' d, k' < k → s !! k' = Some d → isdigit d = false.
Proof.
  revert i. induction s as [|c s IH]; intros i; simpl; [done |].
  destruct (isdigit c) eqn:Hc.
  - intros [= <-]. exists 0, c. split_and!; [lia | done | done |].
    intros; lia.
  - intros (k & d & -> & Hk & Hd & Hbefore)%IH.
    exists (S k), d. split_and!; [lia | done | done |].
    intros [|k'] d' Hlt Hd'; simplify_eq/=; [done |].
    eapply Hbefore; [|done]. lia.
Qed.

Lemma rfind_from_Some (c : N) (i d : nat) (s : pystr) (found : option nat) :
  rfind_from c i s found = Some d →
  found = Some d ∨ ∃ k, d = i + k ∧ s !! k = Some c.
Proof.
  revert i found. induction s as [|b s IH]; intros i found; simpl.
  - by left.
  - intros [Hfound | (k & -> & Hk)]%IH.
    + destruct (N.eqb_spec b c) as [-> | _]; [|by left].
      right. exists 0. split; [|done]. simplify_eq. lia.
    + right. exists (S k). split; [lia | done].
Qed.

Lemma rfind_Some (c : N) (d : nat) (s : pystr) :
  rfind c s = Some d → s !! d = Some c.
Proof.
  intros [? | (k & -> & Hk)]%rfind_from_Some; [done | by rewrite Nat.add_0_l].
Qed.

Lemma is_decimal_digit_isdigit (c : N) :
  is_decimal_digit c = true → isdigit c = true.
Proof.
  unfold is_decimal_digit, isdigit, isdigit_ranges. intros Hc.
  cbn [existsb fst snd]. by rewrite Hc.
Qed.

Lemma first_digit_decimal (i : nat) (s : pystr) :
  (∀ c, c ∈ s → isdigit c = is_decimal_digit c) →
  first_digit_from i s = first_decimal_digit_from i s.
Proof.
  revert i. induction s as [|c s IH]; intros i Hsame; simpl; [done |].
  rewrite <- (Hsame c) by left. destruct (isdigit c); [done |].
  apply IH. intros d Hd. apply Hsame. by right.
Qed.

(** ** IdExtractor *)

(** The tag branch returns the first piece of [split(".")]: the part of
    the name before its first dot. *)
Lemma extract_tagged (filename : pystr) :
  py_in tag filename = true →
  ∃ key,
    extract_id_from_filename filename = Ok key ∧ (dot ∉ key) ∧
    (filename = key ∨ ∃ rest, filename = key ++ dot :: rest).
Proof.
  intros Htag. unfold extract_id_from_filename. rewrite Htag.
  destruct (str_split_head dot filename) as (key & pieces & -> & Hnot & Hform).
  exists key. split_and!; [done | done |].
  destruct Hform as [[-> _] | ?]; auto.
Qed.

(** A key without a dot is the only piece of its own [split(".")]. *)
Lemma extract_tagged_key (key : pystr) :
  dot ∉ key → py_in tag key = true → extract_id_from_filename key = Ok key.
Proof.
  intros Hnot Htag.
  destruct (extract_tagged key Htag) as (key' & -> & _ & [<- | [rest Hk]]);
    [done |].
  exfalso. apply Hnot. rewrite Hk. set_solver.
Qed.

(** Where the stem holds no dot, it is the part before the first dot. *)
Lemma stem_first_piece (filename key : pystr) :
  dot ∉ key → (filename = key ∨ ∃ rest, filename = key ++ dot :: rest) →
  dot ∉ stem filename → key = stem filename.
Proof.
  intros Hkey Hform. unfold stem, splitext.
  destruct (rfind dot filename) as [d|] eqn:Hd; simpl.
  - apply rfind_Some in Hd.
    destruct (_ && _); simpl; intros Hstem.
    + destruct Hform as [-> | [rest ->]].
      { exfalso. apply Hkey. by eapply list_elem_of_lookup_2. }
      destruct (decide (d < length key)) as [Hlt | Hge].
      { exfalso. apply Hkey. rewrite lookup_app_l in Hd by done.
        by eapply list_elem_of_lookup_2. }
      destruct (decide (d = length key)) as [-> | Hne].
      { by rewrite take_app_length. }
      exfalso. apply Hstem.
      apply (list_elem_of_lookup_2 _ (length key)).
      rewrite lookup_take_lt by lia.
      by rewrite list_lookup_middle.
    + exfalso. apply Hstem. by eapply list_elem_of_lookup_2.
  - intros Hstem. destruct Hform as [-> | [rest ->]]; [done |].
    exfalso. apply Hstem. set_solver.
Qed.

(** The digit branch: the window of eight characters that starts at the
    first character for which [isdigit] holds. *)
Lemma extract_untagged (filename : pystr) :
  py_in tag filename = false →
  extract_id_from_filename filename =
    match first_digit_from 0 filename with
    | Some start_i => Ok (take 8 (drop start_i filename))
    | None => Raise AssertionError
    end.
Proof.
  intros Htag. unfold extract_id_from_filename, slice. rewrite Htag.
  destruct (first_digit_from 0 filename) as [start_i|]; [|done].
  do 3 f_equal. lia.
Qed.

(** [extract_id_from_filename] raises nothing but the assertion. *)
Lemma extract_raises (filename : pystr) (e : exn) :
  extract_id_from_filename filename = Raise e → e = AssertionError.
Proof.
  destruct (py_in tag filename) eqn:Htag.
  - destruct (extract_tagged filename Htag) as (key & -> & _). done.
  - rewrite extract_untagged by done.
    destruct (first_digit_from 0 filename); congruence.
Qed.

(** ** PairIndex *)

Lemma gt_dict_from_app (d : gmap pystr DirEntry) (l1 l2 : list DirEntry) :
  gt_dict_from d (l1 ++ l2) = gt_dict_from d l1 ≫= fun d1 => gt_dict_from d1 l2.
Proof.
  revert d. induction l1 as [|f l1 IH]; intros d; simpl; [done |].
  destruct (extract_id_from_filename (name f)); simpl; [apply IH | done].
Qed.

Lemma gt_dict_from_succeeds (d : gmap pystr DirEntry) (files : list DirEntry) :
  Forall recognised files → succeeds (gt_dict_from d files).
Proof.
  intros Hall. revert d.
  induction Hall as [|f files [k Hk] _ IH]; intros d; simpl.
  - by exists d.
  - rewrite Hk. apply IH.
Qed.

Lemma gt_dict_from_recognised (d d' : gmap pystr DirEntry)
    (files : list DirEntry) :
  gt_dict_from d files = Ok d' → Forall recognised files.
Proof.
  revert d. induction files as [|f files IH]; intros d; simpl; [done |].
  destruct (extract_id_from_filename (name f)) as [k|] eqn:Hk; [|done].
  simpl. intros ?%IH. constructor; [by exists k | done].
Qed.

Lemma gt_dict_from_raises (d : gmap pystr DirEntry) (files : list DirEntry)
    (e : exn) :
  gt_dict_from d files = Raise e → e = AssertionError.
Proof.
  revert d. induction files as [|f files IH]; intros d; simpl; [done |].
  destruct (extract_id_from_filename (name f)) as [k|e'] eqn:Hk; simpl.
  - apply IH.
  - intros [= <-]. by eapply extract_raises.
Qed.

(** A key that no file of the list has keeps its entry. *)
Lemma gt_dict_from_other (d d' : gmap pystr DirEntry)
    (files : list DirEntry) (k : pystr) :
  gt_dict_from d files = Ok d' →
  Forall (fun f => extract_id_from_filename (name f) ≠ Ok k) files →
  d' !! k = d !! k.
Proof.
  intros Hd' Hall. revert d Hd'.
  induction Hall as [|f files Hf _ IH]; intros d; simpl.
  - by intros [= ->].
  - destruct (extract_id_from_filename (name f)) as [k'|] eqn:Hk; [|done].
    simpl. intros ->%IH. apply lookup_insert_ne. congruence.
Qed.

(** Every entry of the mapping is a file of the list under its key, or was
    there before; and every key of the list is in the mapping. *)
Lemma gt_dict_from_lookup (d d' : gmap pystr DirEntry)
    (files : list DirEntry) (k : pystr) (g : DirEntry) :
  gt_dict_from d files = Ok d' → d' !! k = Some g →
  d !! k = Some g ∨ (g ∈ files ∧ extract_id_from_filename (name g) = Ok k).
Proof.
  revert d. induction files as [|f files IH]; intros d; simpl.
  - intros [= ->]. by left.
  - destruct (extract_id_from_filename (name f)) as [k'|] eqn:Hk; [|done].
    simpl. intros Hd' Hg. destruct (IH _ Hd' Hg) as [Hins | [Hin Hkey]].
    + destruct (decide (k' = k)) as [-> | Hne].
      * rewrite lookup_insert_eq in Hins. simplify_eq. right.
        split; [by left | done].
      * rewrite lookup_insert_ne in Hins by done. by left.
    + right. split; [by right | done].
Qed.

Lemma gt_dict_from_is_Some (d d' : gmap pystr DirEntry)
    (files : list DirEntry) (k : pystr) :
  gt_dict_from d files = Ok d' →
  is_Some (d !! k) ∨
    (∃ g, g ∈ files ∧ extract_id_from_filename (name g) = Ok k) →
  is_Some (d' !! k).
Proof.
  revert d. induction files as [|f files IH]; intros d; simpl.
  - intros [= ->] [? | (g & Hg & _)]; [done | by apply elem_of_nil in Hg].
  - destruct (extract_id_from_filename (name f)) as [k'|] eqn:Hk; [|done].
    simpl. intros Hd' Hor. apply (IH _ Hd').
    destruct (decide (k' = k)) as [-> | Hne].
    { left. rewrite lookup_insert_eq. by eexists. }
    rewrite lookup_insert_ne by done.
    destruct Hor as [? | (g & [-> | Hg]%elem_of_cons & Hgk)];
      [by left | congruence | right; by exists g].
Qed.

Lemma pair_loop_ok (gt_dict : gmap pystr DirEntry)
    (pred_files : list DirEntry) (tuples : list (pystr * pystr))
    (out : list message) :
  Forall recognised pred_files →
  pair_loop gt_dict pred_files tuples out =
    (out ++ (CannotFindGt <$>
               filter (fun p => pair_of gt_dict p = None) pred_files),
     Ok (tuples ++ omap (pair_of gt_dict) pred_files)).
Proof.
  intros Hall. revert tuples out.
  induction Hall as [|p pred_files [k Hk] _ IH]; intros tuples out; simpl.
  - by rewrite !app_nil_r.
  - assert (pair_of gt_dict p =
            (fun g => (path g, path p)) <$> gt_dict !! k) as Hp.
    { unfold pair_of. by rewrite Hk. }
    rewrite filter_cons, Hk.
    destruct (gt_dict !! k) as [g|]; simpl in Hp; rewrite IH, Hp.
    + rewrite decide_False by done. by rewrite <- app_assoc.
    + rewrite decide_True by done. by rewrite fmap_cons, <- app_assoc.
Qed.

Lemma pair_loop_fails (gt_dict : gmap pystr DirEntry)
    (pred_files : list DirEntry) (tuples : list (pystr * pystr))
    (out : list message) :
  ¬ Forall recognised pred_files →
  snd (pair_loop gt_dict pred_files tuples out) = Raise AssertionError.
Proof.
  revert tuples out.
  induction pred_files as [|p pred_files IH]; intros tuples out Hnot; simpl.
  - destruct Hnot. constructor.
  - destruct (extract_id_from_filename (name p)) as [k|e] eqn:Hk; simpl.
    + assert (¬ Forall recognised pred_files) as Hrest.
      { intros Hall. apply Hnot. constructor; [by exists k | done]. }
      destruct (gt_dict !! k); by apply IH.
    + by rewrite (extract_raises _ _ Hk).
Qed.

(** One unrecognised name among the files of either folder makes
    [prepare_data] raise the assertion. *)
Lemma prepare_data_fails (gt_files pred_files : list DirEntry) :
  ¬ Forall recognised (gt_files ++ pred_files) →
  snd (prepare_data gt_files pred_files) = Raise AssertionError.
Proof.
  intros Hnot. unfold prepare_data.
  destruct (gt_dict_from ∅ gt_files) as [d|e] eqn:Hgt; simpl.
  - apply pair_loop_fails. intros Hpred. apply Hnot.
    apply Forall_app. eauto using gt_dict_from_recognised.
  - by rewrite (gt_dict_from_raises _ _ _ Hgt).
Qed.

(** ** IdExtractor: the claims *)

(** C3 (amended).  For every filename without the tag that holds at least
    one character for which [str.isdigit] is true, [extract] returns the
    characters of the filename from the first such character on, eight of
    them or as many as remain when fewer than eight do. *)
Theorem extract_window_at_first_isdigit (filename : pystr) :
  py_in tag filename = false →
  (∃ c, c ∈ filename ∧ isdigit c = true) →
  ∃ start_i c key,
    filename !! start_i = Some c ∧ isdigit c = true ∧
    (∀ j d, j < start_i → filename !! j = Some d → isdigit d = false) ∧
    extract_id_from_filename filename = Ok key ∧
    key = take 8 (drop start_i filename) ∧
    length key = 8 `min` (length filename - start_i).
Proof.
  intros Htag (c0 & Hin & Hc0).
  rewrite (extract_untagged _ Htag).
  destruct (first_digit_from 0 filename) as [start_i|] eqn:Hfirst.
  - destruct (first_digit_from_Some _ _ _ Hfirst)
      as (k & c & -> & Hk & Hc & Hbefore).
    exists k, c, (take 8 (drop k filename)).
    split_and!; [done | done | done | done | done |].
    by rewrite length_take, length_drop.
  - rewrite first_digit_from_None in Hfirst.
    rewrite (Hfirst c0 Hin) in Hc0. discriminate Hc0.
Qed.

Lemma extract_window_at_first_isdigit_witness :
  py_in tag (lit "photo_00012345.png") = false ∧
  (∃ c, c ∈ lit "photo_00012345.png" ∧ isdigit c = true) ∧
  ∃ start_i c key,
    lit "photo_00012345.png" !! start_i = Some c ∧ isdigit c = true ∧
    (∀ j d, j < start_i → lit "photo_00012345.png" !! j = Some d →
            isdigit d = false) ∧
    extract_id_from_filename (lit "photo_00012345.png") = Ok key ∧
    key = take 8 (drop start_i (lit "photo_00012345.png")) ∧
    length key = 8 `min` (length (lit "photo_00012345.png") - start_i).
Proof.
  assert (∃ c, c ∈ lit "photo_00012345.png" ∧ isdigit c = true) as Hdigit.
  { exists 48%N. split; [|reflexivity].
    apply list_elem_of_In. vm_compute. tauto. }
  split; [reflexivity | split; [exact Hdigit |]].
  apply (extract_window_at_first_isdigit (lit "photo_00012345.png"));
    [reflexivity | exact Hdigit].
Defined.

(** C3 as stated fails on ["v²_00012345.png"]: the name has no tag, its
    first decimal digit is at index 3, and the key starts at index 1, at
    the superscript two, which [isdigit] accepts. *)
Lemma extract_window_superscript :
  py_in tag name_v2 = false ∧
  first_decimal_digit name_v2 = Some 3 ∧
  slice name_v2 3 (3 + 8) = lit "00012345" ∧
  extract_id_from_filename name_v2 = Ok ([superscript_two] ++ lit "_000123") ∧
  extract_id_from_filename name_v2 ≠ Ok (slice name_v2 3 (3 + 8)).
Proof. by vm_compute. Qed.

(** C4 (amended).  For every filename that contains the tag, [extract]
    returns the part of the filename before its first dot: a key without a
    dot, which is the stem whenever the stem holds no dot itself; and
    applying [extract] to a key that still contains the tag yields the same
    key. *)
Theorem extract_tagged_first_piece (filename : pystr) :
  py_in tag filename = true →
  ∃ key,
    extract_id_from_filename filename = Ok key ∧
    (dot ∉ key) ∧
    (filename = key ∨ ∃ rest, filename = key ++ dot :: rest) ∧
    (dot ∉ stem filename → key = stem filename) ∧
    (py_in tag key = true → extract_id_from_filename key = Ok key).
Proof.
  intros Htag.
  destruct (extract_tagged filename Htag) as (key & Hkey & Hnot & Hform).
  exists key. split_and!; [done | done | done | |].
  - by apply stem_first_piece.
  - by apply extract_tagged_key.
Qed.

Lemma extract_tagged_first_piece_witness :
  py_in tag (lit "inshop_01.jpg") = true ∧
  ∃ key,
    extract_id_from_filename (lit "inshop_01.jpg") = Ok key ∧
    (dot ∉ key) ∧
    (lit "inshop_01.jpg" = key ∨
     ∃ rest, lit "inshop_01.jpg" = key ++ dot :: rest) ∧
    (dot ∉ stem (lit "inshop_01.jpg") → key = stem (lit "inshop_01.jpg")) ∧
    (py_in tag key = true → extract_id_from_filename key = Ok key).
Proof.
  split; [reflexivity |].
  apply (extract_tagged_first_piece (lit "inshop_01.jpg")). reflexivity.
Defined.

(** C4 as stated fails on ["a.inshop.jpg"]: the name contains the tag, its
    stem is ["a.inshop"], the key is ["a"], and [extract] raises on that
    key instead of returning it. *)
Lemma extract_tagged_not_stem :
  py_in tag (lit "a.inshop.jpg") = true ∧
  stem (lit "a.inshop.jpg") = lit "a.inshop" ∧
  extract_id_from_filename (lit "a.inshop.jpg") = Ok (lit "a") ∧
  extract_id_from_filename (lit "a.inshop.jpg")
    ≠ Ok (stem (lit "a.inshop.jpg")) ∧
  extract_id_from_filename (lit "a") = Raise AssertionError.
Proof. by vm_compute. Qed.

(** C5 (amended).  For every filename that contains neither the tag nor a
    character for which [str.isdigit] is true, [extract] raises the
    assertion error, and the failure is fatal: with a file of that name in
    either file list [prepare_data] raises, and so does the constructor of
    the dataset for every folder whose scan finds such a file. *)
Theorem extract_unrecognised_fatal (filename : pystr) :
  py_in tag filename = false →
  (∀ c, c ∈ filename → isdigit c = false) →
  extract_id_from_filename filename = Raise AssertionError ∧
  (∀ gt_files pred_files file,
     name file = filename → file ∈ gt_files ++ pred_files →
     snd (prepare_data gt_files pred_files) = Raise AssertionError) ∧
  (∀ tree gt_folder pred_folder height file,
     name file = filename →
     file ∈ scan_files_in_dir (tree gt_folder) jpg_png ++
            scan_files_in_dir (tree pred_folder) jpg_png →
     snd (EvalDataset_init tree gt_folder pred_folder height)
       = Raise AssertionError).
Proof.
  intros Htag Hnone.
  assert (extract_id_from_filename filename = Raise AssertionError) as Hraise.
  { rewrite (extract_untagged _ Htag).
    by apply first_digit_from_None with (i := 0) in Hnone as ->. }
  assert (∀ gt_files pred_files file,
     name file = filename → file ∈ gt_files ++ pred_files →
     snd (prepare_data gt_files pred_files) = Raise AssertionError) as Hfatal.
  { intros gt_files pred_files file Hname Hin. apply prepare_data_fails.
    intros Hall. rewrite Forall_forall in Hall.
    destruct (Hall file Hin) as [k Hk]. congruence. }
  split_and!; [done | done |].
  intros tree gt_folder pred_folder height file Hname Hin.
  unfold EvalDataset_init.
  specialize (Hfatal _ _ file Hname Hin).
  destruct (prepare_data _ _) as [out tuples]. simpl in *. by subst.
Qed.

Lemma extract_unrecognised_fatal_witness :
  py_in tag (lit "abc.jpg") = false ∧
  (∀ c, c ∈ lit "abc.jpg" → isdigit c = false) ∧
  extract_id_from_filename (lit "abc.jpg") = Raise AssertionError ∧
  snd (prepare_data [gt_A] [entry_in "pred" "abc.jpg"]) = Raise AssertionError.
Proof.
  assert (∀ c, c ∈ lit "abc.jpg" → isdigit c = false) as Hnone.
  { intros c Hc. apply list_elem_of_In in Hc. vm_compute in Hc.
    repeat (destruct Hc as [<- | Hc]; [reflexivity |]). destruct Hc. }
  destruct (extract_unrecognised_fatal (lit "abc.jpg") eq_refl Hnone)
    as (Hraise & Hfatal & _).
  split_and!; [reflexivity | exact Hnone | exact Hraise |].
  apply (Hfatal _ _ (entry_in "pred" "abc.jpg")); [reflexivity |].
  apply list_elem_of_In. simpl. tauto.
Defined.

(** C5 as stated fails on ["².png"]: the name holds neither the tag nor a
    decimal digit, and [extract] returns a key, the name itself. *)
Lemma extract_superscript_accepted :
  py_in tag name_2 = false ∧
  first_decimal_digit name_2 = None ∧
  extract_id_from_filename name_2 = Ok name_2.
Proof. by vm_compute. Qed.

(** ** PairIndex: the claims *)

(** The mapping built from the ground-truth files. *)
Lemma gt_dict_from_empty (gt_files : list DirEntry)
    (gt_dict : gmap pystr DirEntry) :
  gt_dict_from ∅ gt_files = Ok gt_dict →
  (∀ k, is_Some (gt_dict !! k) ↔
        ∃ g, g ∈ gt_files ∧ extract_id_from_filename (name g) = Ok k) ∧
  (∀ k g, gt_dict !! k = Some g →
          g ∈ gt_files ∧ extract_id_from_filename (name g) = Ok k).
Proof.
  intros Hd.
  assert (∀ k g, gt_dict !! k = Some g →
            g ∈ gt_files ∧ extract_id_from_filename (name g) = Ok k) as Hsome.
  { intros k g Hg.
    destruct (gt_dict_from_lookup _ _ _ _ _ Hd Hg) as [Hempty | ?]; [|done].
    by rewrite lookup_empty in Hempty. }
  split; [|done]. intros k. split.
  - intros [g Hg]. exists g. eauto.
  - intros Hex. eapply gt_dict_from_is_Some; eauto.
Qed.

(** The Pairs, read by their prediction paths, are the matched predictions
    in their order. *)
Lemma omap_pair_of_paths (gt_dict : gmap pystr DirEntry)
    (pred_files : list DirEntry) :
  snd <$> omap (pair_of gt_dict) pred_files =
  path <$> filter (fun p => pair_of gt_dict p ≠ None) pred_files.
Proof.
  induction pred_files as [|p pred_files IH]; [done |].
  rewrite filter_cons. simpl.
  destruct (pair_of gt_dict p) as [[gt_path pred_path]|] eqn:Hp.
  - rewrite decide_True by done. simpl. f_equal; [|exact IH].
    unfold pair_of in Hp.
    destruct (extract_id_from_filename (name p)) as [k|]; [|done].
    destruct (gt_dict !! k); by simplify_eq/=.
  - by rewrite decide_False by (by intros ?).
Qed.

(** C6.  Whenever every file name is recognised, [prepare_data] returns
    the Pairs of the predictions whose key is in the ground-truth mapping,
    one each and in the order of the prediction files, and prints one line
    for each prediction whose key is absent, which it leaves out; the keys
    of the mapping are those of the ground-truth files, and a ground truth
    that no prediction asks for adds nothing to either list. *)
Theorem prepare_data_inner_join (gt_files pred_files : list DirEntry) :
  Forall recognised (gt_files ++ pred_files) →
  ∃ gt_dict,
    (∀ k, is_Some (gt_dict !! k) ↔
          ∃ g, g ∈ gt_files ∧ extract_id_from_filename (name g) = Ok k) ∧
    (∀ k g, gt_dict !! k = Some g →
            g ∈ gt_files ∧ extract_id_from_filename (name g) = Ok k) ∧
    prepare_data gt_files pred_files =
      (CannotFindGt <$> filter (fun p => pair_of gt_dict p = None) pred_files,
       Ok (omap (pair_of gt_dict) pred_files)) ∧
    snd <$> omap (pair_of gt_dict) pred_files =
      path <$> filter (fun p => pair_of gt_dict p ≠ None) pred_files.
Proof.
  intros [Hgt Hpred]%Forall_app.
  destruct (gt_dict_from_succeeds ∅ _ Hgt) as [gt_dict Hd].
  exists gt_dict.
  destruct (gt_dict_from_empty _ _ Hd) as [Hdom Hsome].
  split_and!; [done | done | | apply omap_pair_of_paths].
  unfold prepare_data. rewrite Hd. by rewrite pair_loop_ok.
Qed.

Lemma prepare_data_inner_join_witness :
  Forall recognised ([gt_A; gt_B] ++ [pred_A; pred_C]) ∧
  (∃ gt_dict,
    (∀ k, is_Some (gt_dict !! k) ↔
          ∃ g, g ∈ [gt_A; gt_B] ∧ extract_id_from_filename (name g) = Ok k) ∧
    (∀ k g, gt_dict !! k = Some g →
            g ∈ [gt_A; gt_B] ∧ extract_id_from_filename (name g) = Ok k) ∧
    prepare_data [gt_A; gt_B] [pred_A; pred_C] =
      (CannotFindGt <$>
         filter (fun p => pair_of gt_dict p = None) [pred_A; pred_C],
       Ok (omap (pair_of gt_dict) [pred_A; pred_C])) ∧
    snd <$> omap (pair_of gt_dict) [pred_A; pred_C] =
      path <$> filter (fun p => pair_of gt_dict p ≠ None) [pred_A; pred_C]) ∧
  prepare_data [gt_A; gt_B] [pred_A; pred_C] =
    ([CannotFindGt pred_C], Ok [(path gt_A, path pred_A)]).
Proof.
  assert (Forall recognised ([gt_A; gt_B] ++ [pred_A; pred_C])) as Hall.
  { repeat constructor; eexists; vm_compute; reflexivity. }
  split_and!; [exact Hall | | by vm_compute].
  apply (prepare_data_inner_join [gt_A; gt_B] [pred_A; pred_C] Hall).
Defined.

(** C7.  When several ground-truth files have the same key, the mapping
    keeps the one enumerated last and nothing is raised: [prepare_data]
    returns, and every Pair it builds for a prediction of that key holds
    the path of the last-enumerated ground-truth file. *)
Theorem gt_dict_last_write_wins (before after pred_files : list DirEntry)
    (g : DirEntry) (k : pystr) :
  Forall recognised (before ++ g :: after) →
  Forall recognised pred_files →
  extract_id_from_filename (name g) = Ok k →
  Forall (fun f => extract_id_from_filename (name f) ≠ Ok k) after →
  ∃ gt_dict out,
    gt_dict_from ∅ (before ++ g :: after) = Ok gt_dict ∧
    gt_dict !! k = Some g ∧
    prepare_data (before ++ g :: after) pred_files =
      (out, Ok (omap (pair_of gt_dict) pred_files)) ∧
    (∀ p, extract_id_from_filename (name p) = Ok k →
          pair_of gt_dict p = Some (path g, path p)).
Proof.
  intros Hgt Hpred Hk Hafter.
  destruct (gt_dict_from_succeeds ∅ _ Hgt) as [gt_dict Hd].
  assert (gt_dict !! k = Some g) as Hlast.
  { rewrite gt_dict_from_app in Hd.
    destruct (gt_dict_from ∅ before) as [d1|] eqn:Hd1; [|done].
    simpl in Hd. rewrite Hk in Hd. simpl in Hd.
    rewrite (gt_dict_from_other _ _ _ _ Hd Hafter).
    by rewrite lookup_insert_eq. }
  exists gt_dict. eexists. split_and!; [done | done | |].
  - unfold prepare_data. rewrite Hd. by rewrite pair_loop_ok.
  - intros p Hp. unfold pair_of. by rewrite Hp, Hlast.
Qed.

Lemma gt_dict_last_write_wins_witness :
  extract_id_from_filename (name gt_A) = Ok key_A ∧
  extract_id_from_filename (name gt_A') = Ok key_A ∧
  (∃ gt_dict out,
    gt_dict_from ∅ ([gt_A; gt_B] ++ gt_A' :: []) = Ok gt_dict ∧
    gt_dict !! key_A = Some gt_A' ∧
    prepare_data ([gt_A; gt_B] ++ gt_A' :: []) [pred_A; pred_C] =
      (out, Ok (omap (pair_of gt_dict) [pred_A; pred_C])) ∧
    (∀ p, extract_id_from_filename (name p) = Ok key_A →
          pair_of gt_dict p = Some (path gt_A', path p))) ∧
  prepare_data [gt_A; gt_B; gt_A'] [pred_A; pred_C] =
    ([CannotFindGt pred_C], Ok [(path gt_A', path pred_A)]).
Proof.
  split_and!; [reflexivity | reflexivity | | by vm_compute].
  apply (gt_dict_last_write_wins [gt_A; gt_B] [] [pred_A; pred_C] gt_A' key_A).
  - repeat constructor; eexists; vm_compute; reflexivity.
  - repeat constructor; eexists; vm_compute; reflexivity.
  - reflexivity.
  - constructor.
Defined.

(** ** ResizePolicy and PairedSampleSource: the claims *)

Section ResizeFacts.
Context {Pixels Values : Type}.
Variable LANCZOS : Image Pixels → Z * Z → Pixels.
Variable Image_open : pystr → result (Image Pixels).
Variable to_tensor_channels : Image Pixels → Z.
Variable to_tensor_values : Image Pixels → Values.

Local Open Scope Z_scope.

Lemma Image_resize_Ok (img : Image Pixels) (size : Z * Z) :
  size = (width img, height img) ∨ (1 ≤ fst size ∧ 1 ≤ snd size) →
  Image_resize LANCZOS img size =
    Ok {| width := fst size; height := snd size;
          pixels := LANCZOS img size |}.
Proof.
  intros Hsize. unfold Image_resize.
  rewrite bool_decide_eq_false_2; [done |]. intros [Hne Hsmall].
  destruct Hsize as [? | ?]; [done | lia].
Qed.

Lemma Image_resize_ValueError (img : Image Pixels) (size : Z * Z) :
  size ≠ (width img, height img) → fst size < 1 ∨ snd size < 1 →
  Image_resize LANCZOS img size = Raise ValueError.
Proof.
  intros Hne Hsmall. unfold Image_resize. by rewrite bool_decide_eq_true_2.
Qed.

Lemma Image_resize_size (img img' : Image Pixels) (size : Z * Z) :
  Image_resize LANCZOS img size = Ok img' →
  width img' = fst size ∧ height img' = snd size.
Proof.
  unfold Image_resize. case_bool_decide; [done |]. by intros [= <-].
Qed.

Lemma resize_spec (self : EvalDataset) (img : Image Pixels) :
  height img ≠ 0 →
  resize LANCZOS self img =
    Image_resize LANCZOS img
      (width img * self_height self ÷ height img, self_height self).
Proof.
  intros Hh. unfold resize. by apply Z.eqb_neq in Hh as ->.
Qed.

(** The truncated width is at least 1 exactly when [h <= w * H]. *)
Lemma scaled_width_pos (w h H : Z) :
  0 < h → (1 ≤ w * H ÷ h ↔ h ≤ w * H).
Proof.
  intros Hh. split.
  - intros Hone. destruct (Z.lt_ge_cases (w * H) 0) as [Hneg | Hpos].
    + pose proof (Z.quot_opp_l (- (w * H)) h ltac:(lia)) as Hopp.
      rewrite Z.opp_involutive in Hopp.
      pose proof (Z.quot_pos (- (w * H)) h ltac:(lia) Hh). lia.
    + rewrite Z.quot_div_nonneg in Hone by lia.
      destruct (Z.lt_ge_cases (w * H) h) as [Hsmall | ?]; [|done].
      rewrite Z.div_small in Hone by lia. lia.
  - intros Hle. rewrite Z.quot_div_nonneg by lia.
    apply Z.div_le_lower_bound; lia.
Qed.

Lemma resize_Ok (self : EvalDataset) (img : Image Pixels) :
  0 < height img → 1 ≤ self_height self →
  height img ≤ width img * self_height self →
  resize LANCZOS self img =
    Ok {| width := width img * self_height self ÷ height img;
          height := self_height self;
          pixels := LANCZOS img (width img * self_height self ÷ height img,
                                 self_height self) |}.
Proof.
  intros Hh HH Hle. rewrite resize_spec by lia.
  rewrite Image_resize_Ok; [done |]. right. simpl.
  split; [by apply scaled_width_pos | done].
Qed.

Lemma resize_ValueError (self : EvalDataset) (img : Image Pixels) :
  0 < width img → 0 < height img →
  self_height self < 1 ∨ width img * self_height self < height img →
  resize LANCZOS self img = Raise ValueError.
Proof.
  intros Hw Hh Hbad. rewrite resize_spec by lia.
  destruct (Z.lt_ge_cases (self_height self) 1) as [Hsmall | Hbig].
  - apply Image_resize_ValueError; [|right; done].
    intros [= _ Heq]. lia.
  - destruct Hbad as [? | Hthin]; [lia |].
    assert (width img * self_height self ÷ height img = 0) as Hzero.
    { apply Z.quot_small. nia. }
    apply Image_resize_ValueError; [|left; simpl; lia].
    intros [= Heq _]. lia.
Qed.

Lemma resize_height (self : EvalDataset) (img img' : Image Pixels) :
  resize LANCZOS self img = Ok img' → height img' = self_height self.
Proof.
  unfold resize. destruct (height img =? 0); [done |].
  by intros [_ ?]%Image_resize_size.
Qed.

(** The two conditional resizes of [__getitem__] are never taken: the
    first resize already gives the target height. *)
Lemma getitem_second_resize_skipped (self : EvalDataset) (idx : Z) :
  getitem LANCZOS Image_open to_tensor_channels to_tensor_values self idx =
  getitem_single_resize LANCZOS Image_open to_tensor_channels
    to_tensor_values self idx.
Proof.
  unfold getitem, getitem_single_resize.
  destruct (py_index (data self) idx) as [[gt_path pred_path]|]; [|done].
  simpl.
  destruct (Image_open gt_path) as [gt0|]; [|done]. simpl.
  destruct (resize LANCZOS self gt0) as [gt|] eqn:Hgt; [|done]. simpl.
  destruct (Image_open pred_path) as [pred0|]; [|done]. simpl.
  destruct (resize LANCZOS self pred0) as [pred|] eqn:Hpred; [|done]. simpl.
  apply resize_height in Hgt, Hpred.
  rewrite !bool_decide_eq_false_2 by (intros Hne; by apply Hne). done.
Qed.

Lemma py_index_in_range {A : Type} (l : list A) (idx : Z) :
  0 ≤ idx < Z.of_nat (length l) →
  ∃ a, py_index l idx = Ok a ∧ l !! Z.to_nat idx = Some a.
Proof.
  intros Hidx. unfold py_index.
  destruct (Z.ltb_spec idx 0) as [? | _]; [lia |].
  destruct (Z.leb_spec 0 idx) as [_ | ?]; [|lia].
  destruct (Z.ltb_spec idx (Z.of_nat (length l))) as [_ | ?]; [|lia].
  simpl. destruct (lookup_lt_is_Some_2 l (Z.to_nat idx)) as [a Ha]; [lia |].
  exists a. by rewrite Ha.
Qed.

(** C2 (amended).  For every image of width [w > 0] and height [h > 0] and
    every target height [H], with [w * H] in the range where the float
    quotient is exact: when [H >= 1] and the quotient [w * H / h] truncated
    toward zero is at least 1, the aspect-preserving resize produces an
    image of height [H] and of that truncated width, the largest integer
    not above the real quotient; when [H < 1] or the truncated width is 0,
    it raises [ValueError]. *)
Theorem resize_truncated_width (self : EvalDataset) (img : Image Pixels) :
  0 < width img → 0 < height img →
  Z.abs (width img * self_height self) + height img ≤ 2 ^ 53 →
  (1 ≤ self_height self → height img ≤ width img * self_height self →
   ∃ img',
     resize LANCZOS self img = Ok img' ∧
     height img' = self_height self ∧
     width img' = width img * self_height self ÷ height img ∧
     width img' * height img ≤ width img * self_height self
       < (width img' + 1) * height img) ∧
  (self_height self < 1 ∨ width img * self_height self < height img →
   resize LANCZOS self img = Raise ValueError).
Proof.
  intros Hw Hh _. split.
  - intros HH Hle. eexists. split; [by apply resize_Ok |].
    split; [done | split; [done |]]. simpl.
    rewrite Z.quot_div_nonneg by lia.
    pose proof (Z.mul_div_le (width img * self_height self) (height img) Hh).
    pose proof (Z.mul_succ_div_gt (width img * self_height self)
                  (height img) Hh).
    lia.
  - by apply resize_ValueError.
Qed.

(** C8 (amended).  For every index in range whose two files open as
    images of positive width and height: when the target height is at
    least 1 and both truncated widths are at least 1, [__getitem__] returns
    two tensors, both of the target height; when the target height is below
    1 or a truncated width is 0, it raises [ValueError]. *)
Theorem getitem_equal_heights (self : EvalDataset) (idx : Z)
    (gt_path pred_path : pystr) (gt0 pred0 : Image Pixels) :
  0 ≤ idx < len self →
  data self !! Z.to_nat idx = Some (gt_path, pred_path) →
  Image_open gt_path = Ok gt0 → Image_open pred_path = Ok pred0 →
  0 < width gt0 → 0 < height gt0 → 0 < width pred0 → 0 < height pred0 →
  (1 ≤ self_height self →
   height gt0 ≤ width gt0 * self_height self →
   height pred0 ≤ width pred0 * self_height self →
   ∃ gt pred,
     getitem LANCZOS Image_open to_tensor_channels to_tensor_values self idx
       = Ok (gt, pred) ∧
     t_height gt = self_height self ∧
     t_height pred = self_height self ∧
     t_height gt = t_height pred) ∧
  (self_height self < 1 ∨
   width gt0 * self_height self < height gt0 ∨
   width pred0 * self_height self < height pred0 →
   getitem LANCZOS Image_open to_tensor_channels to_tensor_values self idx
     = Raise ValueError).
Proof.
  intros Hidx Hpair Hgt Hpred Hwg Hhg Hwp Hhp.
  rewrite getitem_second_resize_skipped. unfold getitem_single_resize.
  destruct (py_index_in_range (data self) idx Hidx) as (pair & -> & Hpair').
  rewrite Hpair in Hpair'. injection Hpair' as <-. simpl.
  rewrite Hgt, Hpred. simpl. split.
  - intros HH Hg Hp. rewrite !resize_Ok by done. simpl.
    eexists _, _. by split_and!.
  - intros Hbad.
    destruct (Z.lt_ge_cases (self_height self) 1) as [Hsmall | Hbig].
    { rewrite (resize_ValueError self gt0) by auto. done. }
    destruct (Z.lt_ge_cases (width gt0 * self_height self) (height gt0))
      as [Hthin | Hwide].
    { rewrite (resize_ValueError self gt0) by auto. done. }
    rewrite (resize_Ok self gt0) by done. simpl.
    rewrite (resize_ValueError self pred0); [done | done | done |].
    right. lia.
Qed.

(** Where the filter returns the pixels of an image when the size asked is
    the size it has, as a resize to the same size does in Pillow, [resize]
    returns an image of the target height as it is. *)
Lemma resize_normalised_identity (self : EvalDataset) (img : Image Pixels) :
  (∀ im, LANCZOS im (width im, height im) = pixels im) →
  0 < height img → height img = self_height self →
  resize LANCZOS self img = Ok img.
Proof.
  intros Hcopy Hh Hnorm. rewrite resize_spec by lia. rewrite <- Hnorm.
  rewrite Z.quot_mul by lia. rewrite Image_resize_Ok by by left.
  simpl. rewrite Hcopy. by destruct img.
Qed.

(** C10.  An image whose height is already the target height keeps its
    width and its height under [resize]; so a second [resize] keeps the
    size that the first one gave, and [__getitem__] with its two
    conditional second resizes returns what it returns without them. *)
Theorem resize_normalised_fixpoint (self : EvalDataset)
    (img : Image Pixels) :
  0 < height img →
  height img = self_height self →
  (∃ img',
     resize LANCZOS self img = Ok img' ∧
     width img' = width img ∧ height img' = height img) ∧
  (∀ img0 img1,
     resize LANCZOS self img0 = Ok img1 →
     ∃ img2,
       resize LANCZOS self img1 = Ok img2 ∧
       width img2 = width img1 ∧ height img2 = height img1) ∧
  (∀ idx,
     getitem LANCZOS Image_open to_tensor_channels to_tensor_values
       self idx =
     getitem_single_resize LANCZOS Image_open to_tensor_channels
       to_tensor_values self idx).
Proof.
  intros Hh Hnorm.
  assert (∀ im : Image Pixels, height im = self_height self →
            ∃ im', resize LANCZOS self im = Ok im' ∧
                   width im' = width im ∧ height im' = height im) as Hfix.
  { intros im Him. rewrite resize_spec by lia. rewrite <- Him.
    rewrite Z.quot_mul by lia. rewrite Image_resize_Ok by by left.
    by eexists. }
  split_and!.
  - by apply Hfix.
  - intros img0 img1 Himg1. apply Hfix. by eapply resize_height.
  - apply getitem_second_resize_skipped.
Qed.
End ResizeFacts.

Lemma resize_truncated_width_witness :
  (0 < width photo_1000x667)%Z ∧
  (0 < height photo_1000x667)%Z ∧
  (Z.abs (width photo_1000x667 * self_height dataset_512)
     + height photo_1000x667 ≤ 2 ^ 53)%Z ∧
  (∃ img',
    resize no_pixels dataset_512 photo_1000x667 = Ok img' ∧
    height img' = self_height dataset_512 ∧
    width img' =
      (width photo_1000x667 * self_height dataset_512
         ÷ height photo_1000x667)%Z ∧
    (width img' * height photo_1000x667
       ≤ width photo_1000x667 * self_height dataset_512
       < (width img' + 1) * height photo_1000x667)%Z) ∧
  resize no_pixels dataset_10 photo_1x1000 = Raise ValueError.
Proof.
  split_and!; [reflexivity | reflexivity | by vm_compute | |].
  - apply (resize_truncated_width no_pixels dataset_512 photo_1000x667);
      by vm_compute.
  - apply (resize_truncated_width no_pixels dataset_10 photo_1x1000);
      [reflexivity | reflexivity | by vm_compute |].
    right. reflexivity.
Defined.

(** C2 as stated fails on a 1000 x 667 image and the target height 512:
    the quotient 1000 * 512 / 667 is 767.6..., its nearest integer is 768,
    and the width of the result is 767. *)
Lemma resize_width_not_rounded :
  resize no_pixels dataset_512 photo_1000x667 =
    Ok {| width := 767; height := 512; pixels := tt |} ∧
  nearest_integer 768 (1000 * 512) 667 ∧
  ¬ nearest_integer 767 (1000 * 512) 667.
Proof.
  split_and!; [reflexivity | |].
  - unfold nearest_integer, Qle. vm_compute. discriminate.
  - unfold nearest_integer, Qle. vm_compute. intros Hle. by apply Hle.
Qed.

Lemma getitem_equal_heights_witness :
  (0 ≤ 0 < len dataset_512)%Z ∧
  (∃ gt pred : Tensor unit,
     getitem no_pixels open_photos (fun _ => 3%Z) (fun _ => tt)
       dataset_512 0 = Ok (gt, pred) ∧
     t_height gt = self_height dataset_512 ∧
     t_height pred = self_height dataset_512 ∧
     t_height gt = t_height pred) ∧
  getitem no_pixels open_photos (fun _ => 3%Z) (fun _ => tt) dataset_512 0 =
    Ok ({| t_channels := 3; t_height := 512; t_width := 384;
           t_values := tt |},
        {| t_channels := 3; t_height := 512; t_width := 767;
           t_values := tt |}).
Proof.
  assert (0 ≤ 0 < len dataset_512)%Z as Hidx by (vm_compute; split; congruence).
  split_and!; [exact (proj1 Hidx) | exact (proj2 Hidx) | | reflexivity].
  apply (getitem_equal_heights no_pixels open_photos (fun _ => 3%Z)
           (fun _ => tt) dataset_512 0 (lit "gt/a_00000001.jpg")
           (lit "pred/out_00000001_x.png") photo_768x1024 photo_1000x667);
    by vm_compute.
Defined.

(** C8 as stated fails on a ground-truth image of 1 x 1000 pixels and the
    target height 10: the index is in range, both files open as images of
    positive size, the truncated width [int(1 * 10 / 1000)] is 0, and
    [__getitem__] raises [ValueError] instead of returning two tensors. *)
Lemma getitem_thin_image_raises :
  (0 ≤ 0 < len dataset_10)%Z ∧
  data dataset_10 !! 0%nat =
    Some (lit "gt/a_00000001.jpg", lit "pred/out_00000001_x.png") ∧
  open_thin (lit "gt/a_00000001.jpg") = Ok photo_1x1000 ∧
  open_thin (lit "pred/out_00000001_x.png") = Ok photo_1000x667 ∧
  (width photo_1x1000 * self_height dataset_10 ÷ height photo_1x1000 = 0)%Z ∧
  getitem no_pixels open_thin (fun _ => 3%Z) (fun _ : Image unit => tt)
    dataset_10 0 = Raise ValueError.
Proof. by vm_compute. Qed.

Lemma resize_normalised_fixpoint_witness :
  (0 < height photo_384x512)%Z ∧
  height photo_384x512 = self_height dataset_512 ∧
  (∃ img',
     resize no_pixels dataset_512 photo_384x512 = Ok img' ∧
     width img' = width photo_384x512 ∧ height img' = height photo_384x512) ∧
  (∀ img0 img1,
     resize no_pixels dataset_512 img0 = Ok img1 →
     ∃ img2,
       resize no_pixels dataset_512 img1 = Ok img2 ∧
       width img2 = width img1 ∧ height img2 = height img1) ∧
  (∀ idx,
     getitem no_pixels open_photos (fun _ => 3%Z) (fun _ : Image unit => tt)
       dataset_512 idx =
     getitem_single_resize no_pixels open_photos (fun _ => 3%Z)
       (fun _ => tt) dataset_512 idx).
Proof.
  split; [reflexivity | split; [reflexivity |]].
  apply (resize_normalised_fixpoint no_pixels open_photos (fun _ => 3%Z)
           (fun _ => tt) dataset_512 photo_384x512); reflexivity.
Defined.

(** ** The bulk exact-resize pass: the claims *)

Section ExactResizeFacts.
Context {Pixels : Type}.
Variable LANCZOS : Image Pixels → Z * Z → Pixels.
Variable decode : bytes → result (Image Pixels).
Variable encode : pystr → Image Pixels → result bytes.

(** The sibling folder is another folder than the ground-truth one. *)
Lemma new_folder_fresh (gt_folder : pystr) (height : Z) :
  gt_folder ≠ gt_folder ++ lit "_" ++ str height.
Proof.
  intros Heq. apply (f_equal length) in Heq.
  rewrite !length_app in Heq. change (length (lit "_")) with 1 in Heq. lia.
Qed.

Lemma Image_save_Ok (fs fs' : filesystem) (img : Image Pixels)
    (folder file : pystr) (u : unit) :
  Image_save encode fs img folder file = (fs', Ok u) →
  ∃ entries content,
    fs !! folder = Some entries ∧
    fs' = <[folder := <[file := RegularFile content]> entries]> fs.
Proof.
  unfold Image_save. destruct (encode file img) as [content|]; [|by inversion 1].
  destruct (fs !! folder) as [entries|]; [|by inversion 1].
  destruct (entries !! file) as [[]|]; inversion 1; eauto.
Qed.

Lemma path_exists_insert (fs : filesystem) (entries : gmap pystr dirent)
    (folder file f : pystr) (d : dirent) :
  fs !! folder = Some entries →
  path_exists (<[folder := <[file := d]> entries]> fs) folder f =
    bool_decide (f = file) || path_exists fs folder f.
Proof.
  intros Hfolder. unfold path_exists. rewrite lookup_insert_eq, Hfolder.
  destruct (decide (f = file)) as [-> | Hne].
  - rewrite lookup_insert_eq.
    by rewrite (bool_decide_eq_true_2 (file = file)).
  - rewrite lookup_insert_ne by done.
    by rewrite (bool_decide_eq_false_2 (f = file)).
Qed.

(** A completed loop leaves the ground-truth folder as it was, keeps what
    exists in the new folder, and every listed file exists there. *)
Lemma copy_loop_Ok (gt_folder new_folder : pystr) (height width : Z)
    (files : list pystr) (fs fs' : filesystem)
    (written written' : list (pystr * pystr)) (u : unit) :
  gt_folder ≠ new_folder →
  copy_loop LANCZOS decode encode gt_folder new_folder height width files
    fs written = (fs', written', Ok u) →
  fs' !! gt_folder = fs !! gt_folder ∧
  (is_Some (fs !! new_folder) → is_Some (fs' !! new_folder)) ∧
  (∀ f, path_exists fs new_folder f = true →
        path_exists fs' new_folder f = true) ∧
  (∀ f, f ∈ files → path_exists fs' new_folder f = true).
Proof.
  intros Hfresh. revert fs written.
  induction files as [|file rest IH]; intros fs written; simpl.
  - intros [= <- <-]. split_and!; [done | done | done |].
    intros f Hf. by apply elem_of_nil in Hf.
  - destruct (path_exists fs new_folder file) eqn:Hexists.
    + intros (Hgt & Hnew & Hkeep & Hall)%IH.
      split_and!; [done | done | done |].
      intros f [-> | Hf]%elem_of_cons; auto.
    + destruct (Image_open_at decode fs gt_folder file) as [img|];
        [|by inversion 1].
      destruct (Image_resize LANCZOS img (width, height)) as [img'|];
        [|by inversion 1].
      destruct (Image_save encode fs _ new_folder file) as [fs1 [u1|]]
        eqn:Hsave; [|by inversion 1].
      apply Image_save_Ok in Hsave as (entries & content & Hentries & ->).
      intros (Hgt & Hnew & Hkeep & Hall)%IH.
      assert (∀ f, bool_decide (f = file) || path_exists fs new_folder f
                   = true → path_exists fs' new_folder f = true) as Hkeep'.
      { intros f Hf. apply Hkeep. by rewrite path_exists_insert. }
      split_and!.
      * by rewrite Hgt, lookup_insert_ne.
      * intros _. apply Hnew. rewrite lookup_insert_eq. by eexists.
      * intros f Hf. apply Hkeep'. rewrite Hf. apply orb_true_r.
      * intros f [-> | Hf]%elem_of_cons; [|by auto].
        apply Hkeep'. by rewrite bool_decide_eq_true_2.
Qed.

(** Where every listed file exists in the new folder, the loop saves
    nothing. *)
Lemma copy_loop_skips (gt_folder new_folder : pystr) (height width : Z)
    (files : list pystr) (fs : filesystem)
    (written : list (pystr * pystr)) :
  (∀ f, f ∈ files → path_exists fs new_folder f = true) →
  copy_loop LANCZOS decode encode gt_folder new_folder height width files
    fs written = (fs, written, Ok ()).
Proof.
  induction files as [|file rest IH]; intros Hall; simpl; [done |].
  rewrite Hall by left. apply IH. intros f Hf. apply Hall. by right.
Qed.

(** C9.  After a pass that completed, a second pass on the same folder,
    height and width finds every listed file in the sibling folder, saves
    nothing and leaves the file system, the sibling folder with it, as
    the first pass left it. *)
Theorem copy_resize_gt_idempotent (fs fs1 : filesystem)
    (gt_folder new_folder : pystr) (height width : Z)
    (written1 : list (pystr * pystr)) :
  copy_resize_gt LANCZOS decode encode fs gt_folder height width
    = (fs1, written1, Ok new_folder) →
  new_folder = gt_folder ++ lit "_" ++ str height ∧
  (∃ files,
     listdir fs1 gt_folder = Ok files ∧
     ∀ file, file ∈ files → path_exists fs1 new_folder file = true) ∧
  copy_resize_gt LANCZOS decode encode fs1 gt_folder height width
    = (fs1, [], Ok new_folder).
Proof.
  unfold copy_resize_gt.
  pose proof (new_folder_fresh gt_folder height) as Hfresh.
  set (nf := gt_folder ++ lit "_" ++ str height) in *.
  set (fs0 := if negb (folder_exists fs nf) then makedirs fs nf else fs).
  assert (is_Some (fs0 !! nf)) as Hnf0.
  { unfold fs0, folder_exists, makedirs.
    destruct (bool_decide_reflect (is_Some (fs !! nf))) as [Hnf | Hnf];
      simpl; [done |].
    destruct (fs !! nf) as [entries|] eqn:Hlookup.
    - destruct Hnf. by eexists.
    - rewrite lookup_insert_eq. by eexists. }
  destruct (listdir fs0 gt_folder) as [files|] eqn:Hlist; [|by inversion 1].
  destruct (copy_loop _ _ _ _ _ _ _ _ _ _) as [[fs' written'] r] eqn:Hloop.
  destruct r as [[]|]; simpl; [|by inversion 1].
  intros [= -> -> <-].
  destruct (copy_loop_Ok _ _ _ _ _ _ _ _ _ _ Hfresh Hloop)
    as (Hgt & Hnew & _ & Hall).
  specialize (Hnew Hnf0).
  assert (listdir fs1 gt_folder = Ok files) as Hlist1.
  { unfold listdir in *. by rewrite Hgt. }
  split_and!; [done | by exists files |].
  unfold folder_exists. rewrite bool_decide_eq_true_2 by done. simpl.
  rewrite Hlist1. by rewrite copy_loop_skips.
Qed.
End ExactResizeFacts.

Lemma copy_resize_gt_idempotent_witness :
  first_pass = (first_pass.1.1,
                [(lit "gt_512", lit "b_00000002.jpg");
                 (lit "gt_512", lit "a_00000001.jpg")],
                Ok (lit "gt_512")) ∧
  copy_resize_gt raw_filter raw_decode raw_encode first_pass.1.1
    (lit "gt") 512 384 = (first_pass.1.1, [], Ok (lit "gt_512")).
Proof.
  assert (first_pass = (first_pass.1.1,
                [(lit "gt_512", lit "b_00000002.jpg");
                 (lit "gt_512", lit "a_00000001.jpg")],
                Ok (lit "gt_512"))) as Hfirst by (by vm_compute).
  split; [exact Hfirst |].
  exact (proj2 (proj2 (copy_resize_gt_idempotent raw_filter raw_decode
                         raw_encode fs_gt _ (lit "gt") _ 512 384 _ Hfirst))).
Defined.

(** ** MetricEngine: the claims *)

Lemma batch_sampler_sizes {A : Type} (batch_size : nat)
    (sampler batch : list A) :
  foldr Z.add 0%Z
    ((fun b => Z.of_nat (length b)) <$>
       batch_sampler batch_size false sampler batch)
  = Z.of_nat (length batch + length sampler).
Proof.
  revert batch. induction sampler as [|idx rest IH]; intros batch; simpl.
  - rewrite andb_true_r. case_bool_decide; simpl; lia.
  - case_bool_decide; simpl; rewrite IH, ?length_app; simpl; lia.
Qed.

Lemma batch_sampler_nonempty {A : Type} (batch_size : nat)
    (sampler batch : list A) :
  0 < length batch + length sampler →
  batch_sampler batch_size false sampler batch ≠ [].
Proof.
  revert batch. induction sampler as [|idx rest IH]; intros batch; simpl.
  - intros Hlen. rewrite andb_true_r, bool_decide_eq_true_2 by lia. done.
  - intros _. case_bool_decide; [done |]. apply IH.
    rewrite length_app. simpl. lia.
Qed.

Section MetricFacts.
Context {R : Type} `{TorchNum R} {T : Type}.

(** A loop that adds value times batch size to the score holds, after
    the first batch, a tensor with the running total. *)
Lemma score_loop_tensor (value : list T * list T → R)
    (step : pynum R → list T * list T → pynum R)
    (batches : list (list T * list T)) (r : R) :
  (∀ score b, step score b =
     py_add score (rmul (value b) (of_int (Z.of_nat (length (fst b)))))) →
  foldl step (PyTensor r) batches =
    PyTensor
      (foldl (fun accumulator '(v, size) =>
                radd accumulator (rmul v (of_int size)))
         r ((fun b => (value b, Z.of_nat (length (fst b)))) <$> batches)).
Proof.
  intros Hstep. revert r.
  induction batches as [|b rest IH]; intros r; simpl; [done |].
  by rewrite Hstep, <- IH.
Qed.

Lemma score_loop (value : list T * list T → R)
    (step : pynum R → list T * list T → pynum R)
    (batches : list (list T * list T)) :
  (∀ score b, step score b =
     py_add score (rmul (value b) (of_int (Z.of_nat (length (fst b)))))) →
  batches ≠ [] →
  foldl step (PyInt 0) batches =
    PyTensor
      (accumulate
         ((fun b => (value b, Z.of_nat (length (fst b)))) <$> batches)).
Proof.
  intros Hstep Hne. destruct batches as [|b rest]; [done |]. simpl.
  rewrite Hstep. simpl. by rewrite (score_loop_tensor value).
Qed.

(** With [drop_last=False] the batches hold every sample once: their
    sizes add up to [len(dataloader.dataset)]. *)
Lemma DataLoader_iter_sizes (dataloader : DataLoader T) :
  drop_last dataloader = false →
  foldr Z.add 0%Z
    ((fun b => Z.of_nat (length (fst b))) <$> DataLoader_iter dataloader)
  = Z.of_nat (length (dataset dataloader)).
Proof.
  intros Hdrop. unfold DataLoader_iter. rewrite Hdrop, <- list_fmap_compose.
  etrans; [|exact (batch_sampler_sizes (batch_size dataloader)
                     (dataset dataloader) [])].
  f_equal. apply list_fmap_ext. intros _ b _. simpl.
  by rewrite length_fmap.
Qed.

Lemma DataLoader_iter_nonempty (dataloader : DataLoader T) :
  drop_last dataloader = false → dataset dataloader ≠ [] →
  DataLoader_iter dataloader ≠ [].
Proof.
  intros Hdrop Hne. unfold DataLoader_iter. rewrite Hdrop.
  intros Hnil%fmap_nil_inv. revert Hnil. apply batch_sampler_nonempty.
  destruct (dataset dataloader); [done | simpl; lia].
Qed.

(** The loop of a paired metric returns the batch-weighted average. *)
Lemma metric_loop (value : list T * list T → R)
    (step : pynum R → list T * list T → pynum R)
    (dataloader : DataLoader T) :
  (∀ score b, step score b =
     py_add score (rmul (value b) (of_int (Z.of_nat (length (fst b)))))) →
  drop_last dataloader = false → dataset dataloader ≠ [] →
  py_truediv (foldl step (PyInt 0) (DataLoader_iter dataloader))
    (Z.of_nat (length (dataset dataloader)))
  = Ok (PyTensor
          (batch_weighted_average
             ((fun b => (value b, Z.of_nat (length (fst b)))) <$>
                DataLoader_iter dataloader))).
Proof.
  intros Hstep Hdrop Hne.
  rewrite (score_loop value) by auto using DataLoader_iter_nonempty.
  unfold batch_weighted_average. simpl.
  by rewrite <- list_fmap_compose, <- (DataLoader_iter_sizes _ Hdrop).
Qed.

Variable PeakSignalNoiseRatio : list T → list T → R.
Variable StructuralSimilarityIndexMeasure : list T → list T → R.
Variable LearnedPerceptualImagePatchSimilarity : list T → list T → R.
Variable tensor_mul tensor_sub : list T → Z → list T.

(** Over an empty dataset the loop never runs and [0 / 0] raises. *)
Lemma psnr_empty_dataset (dataloader : DataLoader T) :
  dataset dataloader = [] →
  psnr PeakSignalNoiseRatio dataloader = Raise ZeroDivisionError.
Proof.
  intros Hnil. unfold psnr, DataLoader_iter. by rewrite Hnil.
Qed.

(** C1.  For a loader that drops no batch, over a dataset that is not
    empty, each of [psnr], [ssim] and [lpips] returns the batch-weighted
    running average of its metric: the accumulator, from zero, adds the
    value of the metric on each batch times the size of the batch, and
    the result is the accumulator divided by the number of samples, which
    is the sum of the sizes of the batches. *)
Theorem paired_metrics_batch_weighted (dataloader : DataLoader T) :
  drop_last dataloader = false →
  dataset dataloader ≠ [] →
  foldr Z.add 0%Z
    ((fun b => Z.of_nat (length (fst b))) <$> DataLoader_iter dataloader)
    = Z.of_nat (length (dataset dataloader)) ∧
  psnr PeakSignalNoiseRatio dataloader =
    Ok (PyTensor
          (batch_weighted_average
             ((fun b => (PeakSignalNoiseRatio (snd b) (fst b),
                         Z.of_nat (length (fst b)))) <$>
                DataLoader_iter dataloader))) ∧
  ssim StructuralSimilarityIndexMeasure dataloader =
    Ok (PyTensor
          (batch_weighted_average
             ((fun b => (StructuralSimilarityIndexMeasure (snd b) (fst b),
                         Z.of_nat (length (fst b)))) <$>
                DataLoader_iter dataloader))) ∧
  lpips LearnedPerceptualImagePatchSimilarity tensor_mul tensor_sub
    dataloader =
    Ok (PyTensor
          (batch_weighted_average
             ((fun b => (LearnedPerceptualImagePatchSimilarity
                           (tensor_sub (tensor_mul (fst b) 2) 1)
                           (tensor_sub (tensor_mul (snd b) 2) 1),
                         Z.of_nat (length (fst b)))) <$>
                DataLoader_iter dataloader))).
Proof.
  intros Hdrop Hne. split_and!.
  - by apply DataLoader_iter_sizes.
  - unfold psnr. apply metric_loop; [|done..]. by intros score [gt pred].
  - unfold ssim. apply metric_loop; [|done..]. by intros score [gt pred].
  - unfold lpips. apply metric_loop; [|done..]. by intros score [gt pred].
Qed.
End MetricFacts.

Lemma paired_metrics_batch_weighted_witness :
  drop_last thirteen = false ∧
  dataset thirteen ≠ [] ∧
  (fun b => Z.of_nat (length (fst b))) <$> DataLoader_iter thirteen
    = [10%Z; 3%Z] ∧
  ∃ q : Q,
    psnr metric_08_05 thirteen = Ok (PyTensor q) ∧
    ssim metric_08_05 thirteen = Ok (PyTensor q) ∧
    lpips metric_08_05 no_scaling no_scaling thirteen = Ok (PyTensor q) ∧
    q = batch_weighted_average [(8 # 10, 10%Z); (5 # 10, 3%Z)] ∧
    (q == ((8 # 10) * 10 + (5 # 10) * 3) / 13)%Q ∧
    ¬ (q == 65 # 100)%Q.
Proof.
  assert (dataset thirteen ≠ []) as Hne by done.
  destruct (paired_metrics_batch_weighted metric_08_05 metric_08_05
              metric_08_05 no_scaling no_scaling thirteen eq_refl Hne)
    as (_ & Hpsnr & Hssim & Hlpips).
  split_and!; [reflexivity | exact Hne | reflexivity |].
  eexists. split_and!; [exact Hpsnr | exact Hssim | exact Hlpips | | |].
  - reflexivity.
  - by vm_compute.
  - by vm_compute.
Defined.

(* ===================================================================== *)
(** * Part III: further properties of the code *)
(* ===================================================================== *)

(** ** IdExtractor *)

Lemma first_digit_from_app (i : nat) (pre rest : pystr) (d : N) :
  (∀ c, c ∈ pre → isdigit c = false) → isdigit d = true →
  first_digit_from i (pre ++ d :: rest) = Some (i + length pre).
Proof.
  revert i. induction pre as [|c pre IH]; intros i Hpre Hd; simpl.
  - rewrite Hd. f_equal. lia.
  - rewrite (Hpre c) by left. rewrite IH; [f_equal; lia | | done].
    intros c' Hc'. apply Hpre. by right.
Qed.

(** Below code point 178 the digits of [isdigit] are the ten decimal
    digits. *)
Lemma isdigit_below_178 (c : N) :
  (c < 178)%N → isdigit c = is_decimal_digit c.
Proof.
  intros Hc. unfold isdigit, isdigit_ranges.
  match goal with |- existsb ?f (_ :: ?l) = _ =>
    change (is_decimal_digit c || existsb f l = is_decimal_digit c);
    assert (existsb f l = false) as ->; [|apply orb_false_r] end.
  assert (∀ l : list (N * N),
            forallb (fun r => (178 <=? fst r)%N) l = true →
            existsb (fun r => (fst r <=? c)%N && (c <=? snd r)%N) l = false)
    as Hhigh.
  { induction l as [|r l IH]; simpl; [done |].
    intros [Hr Hl]%andb_true_iff. rewrite (IH Hl), orb_false_r.
    apply N.leb_le in Hr. apply andb_false_iff. left.
    apply N.leb_gt. lia. }
  apply Hhigh. by vm_compute.
Qed.

(** X1.  A key is a piece of the filename: under the tag it is the part
    before the first dot, the whole name when there is no dot; otherwise it
    is at most eight characters long and starts with a digit character. *)
Theorem extract_key_substring (filename key : pystr) :
  extract_id_from_filename filename = Ok key →
  (∃ before after, filename = before ++ key ++ after) ∧
  (py_in tag filename = true →
     (dot ∉ key) ∧
     (filename = key ∨ ∃ rest, filename = key ++ dot :: rest)) ∧
  (py_in tag filename = false →
     length key ≤ 8 ∧ ∃ c, head key = Some c ∧ isdigit c = true).
Proof.
  intros Hkey. destruct (py_in tag filename) eqn:Htag.
  - destruct (extract_tagged filename Htag) as (key' & Hkey' & Hnot & Hform).
    rewrite Hkey in Hkey'. injection Hkey' as <-.
    assert (∃ after, filename = key ++ after) as [after Hafter].
    { destruct Hform as [-> | [rest ->]]; [exists [] | by eexists].
      by rewrite app_nil_r. }
    split_and!; [by exists [], after | done | done].
  - rewrite (extract_untagged _ Htag) in Hkey.
    destruct (first_digit_from 0 filename) as [start_i|] eqn:Hfirst; [|done].
    injection Hkey as <-.
    destruct (first_digit_from_Some _ _ _ Hfirst)
      as (k & c & -> & Hk & Hc & _). simpl.
    split_and!; [| done |].
    + exists (take k filename), (drop 8 (drop k filename)).
      by rewrite (take_drop 8), take_drop.
    + intros _. split; [rewrite length_take; lia |].
      exists c. split; [|done].
      rewrite head_lookup, lookup_take_lt, lookup_drop by lia.
      by rewrite Nat.add_0_r.
Qed.

Lemma extract_key_substring_witness :
  extract_id_from_filename (lit "render_00012345_out.png")
    = Ok (lit "00012345") ∧
  (∃ before after,
     lit "render_00012345_out.png" = before ++ lit "00012345" ++ after) ∧
  (py_in tag (lit "render_00012345_out.png") = false →
     length (lit "00012345") ≤ 8 ∧
     ∃ c, head (lit "00012345") = Some c ∧ isdigit c = true) ∧
  extract_id_from_filename (lit "inshop_01.v2.jpg") = Ok (lit "inshop_01") ∧
  (py_in tag (lit "inshop_01.v2.jpg") = true →
     (dot ∉ lit "inshop_01") ∧
     (lit "inshop_01.v2.jpg" = lit "inshop_01" ∨
      ∃ rest, lit "inshop_01.v2.jpg" = lit "inshop_01" ++ dot :: rest)).
Proof.
  destruct (extract_key_substring (lit "render_00012345_out.png")
              (lit "00012345") eq_refl) as (Hpiece & _ & Hdigit).
  destruct (extract_key_substring (lit "inshop_01.v2.jpg")
              (lit "inshop_01") eq_refl) as (_ & Htagged & _).
  split_and!; [reflexivity | exact Hpiece | exact Hdigit | reflexivity
              | exact Htagged].
Defined.

(** X2.  [extract] returns a key exactly for the names that hold the tag
    or a digit character, and raises nothing but the assertion. *)
Theorem extract_succeeds_iff (filename : pystr) :
  (succeeds (extract_id_from_filename filename) ↔
     py_in tag filename = true ∨ ∃ c, c ∈ filename ∧ isdigit c = true) ∧
  (extract_id_from_filename filename = Raise AssertionError ↔
     py_in tag filename = false ∧ ∀ c, c ∈ filename → isdigit c = false) ∧
  (∀ e, extract_id_from_filename filename = Raise e → e = AssertionError).
Proof.
  split_and!; [| |apply extract_raises].
  - destruct (py_in tag filename) eqn:Htag.
    + destruct (extract_tagged filename Htag) as (key & Hkey & _).
      split; [by left | intros _; by exists key].
    + rewrite (extract_untagged _ Htag).
      destruct (first_digit_from 0 filename) as [i|] eqn:Hfirst.
      * destruct (first_digit_from_Some _ _ _ Hfirst)
          as (k & c & _ & Hk & Hc & _).
        split; [intros _; right | intros _; by eexists].
        exists c. split; [by eapply list_elem_of_lookup_2 | done].
      * split; [by intros [? ?] |].
        rewrite first_digit_from_None in Hfirst.
        intros [? | (c & Hin & Hc)]; [done |].
        rewrite (Hfirst c Hin) in Hc. discriminate Hc.
  - destruct (py_in tag filename) eqn:Htag.
    + destruct (extract_tagged filename Htag) as (key & -> & _).
      split; [done | by intros [? _]].
    + rewrite (extract_untagged _ Htag).
      destruct (first_digit_from 0 filename) as [i|] eqn:Hfirst.
      * destruct (first_digit_from_Some _ _ _ Hfirst)
          as (k & c & _ & Hk & Hc & _).
        split; [done | intros [_ Hnone]].
        rewrite (Hnone c) in Hc by by eapply list_elem_of_lookup_2.
        discriminate Hc.
      * rewrite first_digit_from_None in Hfirst. by split.
Qed.

(** X3.  What precedes the first digit character does not matter: two
    names without the tag whose first digit character and the seven
    characters after it agree get the same key, that window. *)
Theorem extract_prefix_insensitive (pre1 pre2 rest1 rest2 : pystr) (d : N) :
  py_in tag (pre1 ++ d :: rest1) = false →
  py_in tag (pre2 ++ d :: rest2) = false →
  (∀ c, c ∈ pre1 ++ pre2 → isdigit c = false) →
  isdigit d = true →
  take 7 rest1 = take 7 rest2 →
  extract_id_from_filename (pre1 ++ d :: rest1) = Ok (d :: take 7 rest1) ∧
  extract_id_from_filename (pre2 ++ d :: rest2) = Ok (d :: take 7 rest1).
Proof.
  intros Htag1 Htag2 Hpre Hd Hsame.
  assert (∀ pre rest, py_in tag (pre ++ d :: rest) = false →
            (∀ c, c ∈ pre → isdigit c = false) →
            extract_id_from_filename (pre ++ d :: rest)
              = Ok (d :: take 7 rest)) as Hwindow.
  { intros pre rest Htag Hnone. rewrite (extract_untagged _ Htag).
    rewrite first_digit_from_app by done. simpl.
    by rewrite drop_app_length. }
  split.
  - apply Hwindow; [done |]. intros c Hc. apply Hpre. set_solver.
  - rewrite Hsame. apply Hwindow; [done |].
    intros c Hc. apply Hpre. set_solver.
Qed.

Lemma extract_prefix_insensitive_witness :
  extract_id_from_filename (lit "photo_00012345.png") = Ok (lit "00012345") ∧
  extract_id_from_filename (lit "render_00012345_out.png")
    = Ok (lit "00012345").
Proof.
  apply (extract_prefix_insensitive (lit "photo_") (lit "render_")
           (lit "0012345.png") (lit "0012345_out.png") 48%N);
    try reflexivity.
  intros c Hc. apply list_elem_of_In in Hc. vm_compute in Hc.
  repeat (destruct Hc as [<- | Hc]; [reflexivity |]). destruct Hc.
Defined.

(** X4.  On a name of ASCII characters the digit characters are the ten
    decimal digits: without the tag the key is the window at the first
    decimal digit, and a name with no decimal digit raises. *)
Theorem extract_ascii (filename : pystr) :
  (∀ c, c ∈ filename → (c < 128)%N) →
  py_in tag filename = false →
  extract_id_from_filename filename =
    match first_decimal_digit filename with
    | Some start_i => Ok (slice filename start_i (start_i + 8))
    | None => Raise AssertionError
    end.
Proof.
  intros Hascii Htag. unfold extract_id_from_filename, first_decimal_digit.
  rewrite Htag, first_digit_decimal; [done |].
  intros c Hc. apply isdigit_below_178. specialize (Hascii c Hc). lia.
Qed.

Lemma extract_ascii_witness :
  extract_id_from_filename (lit "x1.jpg") = Ok (lit "1.jpg") ∧
  first_decimal_digit (lit "x1.jpg") = Some 1.
Proof.
  split; [|reflexivity].
  rewrite (extract_ascii (lit "x1.jpg")); [reflexivity | | reflexivity].
  intros c Hc. apply list_elem_of_In in Hc. vm_compute in Hc.
  repeat (destruct Hc as [<- | Hc]; [reflexivity |]). destruct Hc.
Defined.

(** ** [os.path.splitext] and the FileScanner *)

Lemma rfind_from_cases (c : N) (i : nat) (s : pystr) (found : option nat) :
  (rfind_from c i s found = found ∧ c ∉ s) ∨
  (∃ k, rfind_from c i s found = Some (i + k) ∧ s !! k = Some c ∧
        ∀ j, k < j → s !! j ≠ Some c).
Proof.
  revert i found. induction s as [|b s IH]; intros i found; simpl.
  - left. split; [done | apply not_elem_of_nil].
  - destruct (IH (S i) (if (b =? c)%N then Some i else found))
      as [[Hr Hnot] | (k & Hr & Hk & Hlast)].
    + destruct (N.eqb_spec b c) as [-> | Hne].
      * right. exists 0. rewrite Hr, Nat.add_0_r. split_and!; [done..|].
        intros [|j] Hj; [lia |]. simpl. intros Hj'. apply Hnot.
        by eapply list_elem_of_lookup_2.
      * left. split; [done |]. by intros [? | ?]%elem_of_cons.
    + right. exists (S k). rewrite Hr. split_and!; [f_equal; lia | done |].
      intros [|j] Hj; [lia |]. simpl. apply Hlast. lia.
Qed.

Lemma rfind_cases (c : N) (s : pystr) :
  (rfind c s = None ∧ c ∉ s) ∨
  (∃ k, rfind c s = Some k ∧ s !! k = Some c ∧
        ∀ j, k < j → s !! j ≠ Some c).
Proof. apply (rfind_from_cases c 0 s None). Qed.

(** X5.  [splitext] cuts a path in two parts that give the path back; the
    extension is empty, or a dot followed by characters that are neither a
    dot nor a slash. *)
Theorem splitext_root_ext (p : pystr) :
  fst (splitext p) ++ snd (splitext p) = p ∧
  (snd (splitext p) = [] ∨
   ∃ ext, snd (splitext p) = dot :: ext ∧ (dot ∉ ext) ∧ (slash ∉ ext)).
Proof.
  unfold splitext.
  destruct (rfind_cases dot p) as [[-> _] | (d & -> & Hd & Hlast)]; simpl.
  { split; [apply app_nil_r | by left]. }
  destruct (_ && _) eqn:Hsplit; simpl; [|split; [apply app_nil_r | by left]].
  split; [apply take_drop | right].
  apply andb_true_iff in Hsplit as [Hle%bool_decide_eq_true _].
  assert (∃ ext, drop d p = dot :: ext) as [ext Hext].
  { destruct (drop d p) as [|b ext] eqn:Hdrop.
    - apply (f_equal (fun l => l !! 0)) in Hdrop.
      rewrite lookup_drop, Nat.add_0_r, Hd in Hdrop. done.
    - apply (f_equal (fun l => l !! 0)) in Hdrop.
      rewrite lookup_drop, Nat.add_0_r, Hd in Hdrop. simplify_eq/=.
      by exists ext. }
  exists ext. split_and!; [done | |].
  - intros [j Hj]%list_elem_of_lookup_1.
    apply (Hlast (d + S j)); [lia |].
    rewrite <- lookup_drop, Hext. done.
  - intros [j Hj]%list_elem_of_lookup_1.
    assert (p !! (d + S j) = Some slash) as Hslash.
    { rewrite <- lookup_drop, Hext. done. }
    destruct (rfind_cases slash p) as [[_ Hnone] | (k & Hk & _ & Hklast)].
    + apply Hnone. by eapply list_elem_of_lookup_2.
    + rewrite Hk in Hle. apply (Hklast (d + S j)); [lia | done].
Qed.

(** Induction on a directory tree, with the hypothesis for every child. *)
Lemma node_forall_ind (P : node → Prop) :
  (∀ entry, P (File entry)) →
  (∀ entry children, Forall P children → P (Dir entry children)) →
  (∀ entry, P (Other entry)) →
  ∀ n, P n.
Proof.
  intros HFile HDir HOther. fix IH 1. intros [entry | entry children | entry].
  - apply HFile.
  - apply HDir. induction children as [|child children IHchildren].
    + constructor.
    + constructor; [apply IH | apply IHchildren].
  - apply HOther.
Qed.

Lemma scan_entry_below (postfix : option (list pystr)) (n : node)
    (entry : DirEntry) :
  entry ∈ scan_entry postfix n →
  file_below entry [n] ∧ postfix_ok postfix entry = true.
Proof.
  revert entry. induction n as [e | e children IH | e] using node_forall_ind;
    intros entry; simpl.
  - destruct (postfix_ok postfix e) eqn:Hok; [|by intros ?%elem_of_nil].
    intros ->%list_elem_of_singleton. split; [|done].
    apply file_here. by left.
  - intros (child & Hentry & Hchild)%list_elem_of_In%in_flat_map.
    apply list_elem_of_In in Hentry, Hchild.
    rewrite Forall_forall in IH.
    destruct (IH child Hentry entry Hchild) as [Hbelow Hok].
    split; [|done]. apply (file_deeper entry e children); [by left |].
    inversion Hbelow as [? ? Hin | ? sub ch ? Hin Hdeep]; subst.
    + apply list_elem_of_singleton in Hin as <-. by apply file_here.
    + apply list_elem_of_singleton in Hin as <-.
      by eapply file_deeper.
  - by intros ?%elem_of_nil.
Qed.

(** X6.  The scan returns exactly the regular files below the directory,
    at any depth, that pass the extension filter; directories and other
    entries are never returned. *)
Theorem scan_files_in_dir_spec (directory : list node)
    (postfix : option (list pystr)) (entry : DirEntry) :
  entry ∈ scan_files_in_dir directory postfix ↔
  file_below entry directory ∧ postfix_ok postfix entry = true.
Proof.
  unfold scan_files_in_dir. split.
  - intros (n & Hn & Hentry)%list_elem_of_In%in_flat_map.
    apply list_elem_of_In in Hn, Hentry.
    destruct (scan_entry_below _ _ _ Hentry) as [Hbelow Hok].
    split; [|done].
    inversion Hbelow as [? ? Hin | ? sub ch ? Hin Hdeep]; subst.
    + apply list_elem_of_singleton in Hin as <-. by apply file_here.
    + apply list_elem_of_singleton in Hin as <-. by eapply file_deeper.
  - intros [Hbelow Hok].
    induction Hbelow as [entry directory Hin
                        | entry sub children directory Hin _ IH].
    + apply list_elem_of_In, in_flat_map. exists (File entry).
      split; [by apply list_elem_of_In |]. simpl. rewrite Hok. by left.
    + apply list_elem_of_In, in_flat_map. exists (Dir sub children).
      split; [by apply list_elem_of_In |]. simpl.
      apply list_elem_of_In. by apply IH.
Qed.

(** X7.  Every entry that the dataset's scan returns is a regular file
    below the folder whose path ends in [.jpg] or in [.png], in lower
    case. *)
Theorem scan_jpg_png_paths (directory : list node) (entry : DirEntry) :
  entry ∈ scan_files_in_dir directory jpg_png →
  file_below entry directory ∧
  ∃ root, path entry = root ++ lit ".jpg" ∨ path entry = root ++ lit ".png".
Proof.
  intros [Hbelow Hok]%scan_files_in_dir_spec. split; [done |].
  exists (fst (splitext (path entry))).
  destruct (splitext_root_ext (path entry)) as [Hpath _].
  simpl in Hok. apply bool_decide_eq_true in Hok.
  apply list_elem_of_In in Hok. simpl in Hok.
  destruct Hok as [Hext | [Hext | []]]; rewrite <- Hext in Hpath;
    [left | right]; by rewrite Hpath.
Qed.

Lemma scan_jpg_png_paths_witness :
  scan_files_in_dir tree_gt jpg_png =
    [entry_in "gt" "a_00000001.jpg"; entry_in "gt/more" "b_00000002.png"] ∧
  file_below (entry_in "gt/more" "b_00000002.png") tree_gt ∧
  ∃ root,
    path (entry_in "gt/more" "b_00000002.png") = root ++ lit ".jpg" ∨
    path (entry_in "gt/more" "b_00000002.png") = root ++ lit ".png".
Proof.
  split; [by vm_compute |].
  apply (scan_jpg_png_paths tree_gt (entry_in "gt/more" "b_00000002.png")).
  apply list_elem_of_In. vm_compute. tauto.
Defined.

(** ** PairIndex *)

Lemma pair_loop_recognised (gt_dict : gmap pystr DirEntry)
    (pred_files : list DirEntry) (tuples tuples' : list (pystr * pystr))
    (out out' : list message) :
  pair_loop gt_dict pred_files tuples out = (out', Ok tuples') →
  Forall recognised pred_files.
Proof.
  revert tuples out.
  induction pred_files as [|p pred_files IH]; intros tuples out; simpl.
  - constructor.
  - destruct (extract_id_from_filename (name p)) as [k|] eqn:Hk;
      [|by inversion 1].
    destruct (gt_dict !! k); intros ?%IH; constructor; by try exists k.
Qed.

(** What a returning [prepare_data] returns: the mapping of the
    ground-truth files decides each prediction. *)
Lemma prepare_data_Ok (gt_files pred_files : list DirEntry)
    (out : list message) (tuples : list (pystr * pystr)) :
  prepare_data gt_files pred_files = (out, Ok tuples) →
  ∃ gt_dict,
    gt_dict_from ∅ gt_files = Ok gt_dict ∧
    Forall recognised (gt_files ++ pred_files) ∧
    out = CannotFindGt <$>
            filter (fun p => pair_of gt_dict p = None) pred_files ∧
    tuples = omap (pair_of gt_dict) pred_files.
Proof.
  unfold prepare_data.
  destruct (gt_dict_from ∅ gt_files) as [gt_dict|] eqn:Hd; [|by inversion 1].
  intros Hloop. exists gt_dict.
  pose proof (pair_loop_recognised _ _ _ _ _ _ Hloop) as Hpred.
  rewrite pair_loop_ok in Hloop by done. simpl in Hloop.
  injection Hloop as <- <-. split_and!; [done | | done | done].
  apply Forall_app. eauto using gt_dict_from_recognised.
Qed.

Lemma omap_filter_length {A B : Type} (f : A → option B)
    `{!∀ a, Decision (f a = None)} (l : list A) :
  length (omap f l) + length (filter (fun a => f a = None) l) = length l.
Proof.
  induction l as [|a l IH]; [done |]. rewrite filter_cons.
  destruct (decide (f a = None)) as [Ha | Ha]; simpl.
  - rewrite Ha. change (list_omap A B f l) with (omap f l). lia.
  - destruct (f a); [|done]. simpl.
    change (list_omap A B f l) with (omap f l). lia.
Qed.

(** X8.  Every prediction file is accounted for once: when [prepare_data]
    returns, the Pairs and the lines printed are together as many as the
    prediction files. *)
Theorem prepare_data_accounting (gt_files pred_files : list DirEntry)
    (out : list message) (tuples : list (pystr * pystr)) :
  prepare_data gt_files pred_files = (out, Ok tuples) →
  length tuples + length out = length pred_files.
Proof.
  intros (gt_dict & _ & _ & -> & ->)%prepare_data_Ok.
  rewrite length_fmap. apply omap_filter_length.
Qed.

Lemma prepare_data_accounting_witness :
  prepare_data [gt_A; gt_B] [pred_A; pred_C] =
    ([CannotFindGt pred_C], Ok [(path gt_A, path pred_A)]) ∧
  length [(path gt_A, path pred_A)] + length [CannotFindGt pred_C] =
    length [pred_A; pred_C].
Proof.
  assert (prepare_data [gt_A; gt_B] [pred_A; pred_C] =
    ([CannotFindGt pred_C], Ok [(path gt_A, path pred_A)])) as Hrun
    by (by vm_compute).
  split; [exact Hrun |].
  exact (prepare_data_accounting _ _ _ _ Hrun).
Defined.

(** X9.  The join is sound: every Pair holds the paths of a ground-truth
    file and of a prediction file with the same key, and every prediction
    reported has a key that no ground-truth file has. *)
Theorem prepare_data_sound (gt_files pred_files : list DirEntry)
    (out : list message) (tuples : list (pystr * pystr)) :
  prepare_data gt_files pred_files = (out, Ok tuples) →
  (∀ gt_path pred_path, (gt_path, pred_path) ∈ tuples →
     ∃ gt_file pred_file key,
       gt_file ∈ gt_files ∧ pred_file ∈ pred_files ∧
       gt_path = path gt_file ∧ pred_path = path pred_file ∧
       extract_id_from_filename (name gt_file) = Ok key ∧
       extract_id_from_filename (name pred_file) = Ok key) ∧
  (∀ pred_file, CannotFindGt pred_file ∈ out →
     pred_file ∈ pred_files ∧
     ∃ key, extract_id_from_filename (name pred_file) = Ok key ∧
       ∀ gt_file, gt_file ∈ gt_files →
         extract_id_from_filename (name gt_file) ≠ Ok key).
Proof.
  intros (gt_dict & Hd & Hall & -> & ->)%prepare_data_Ok.
  destruct (gt_dict_from_empty _ _ Hd) as [Hdom Hsome].
  apply Forall_app in Hall as [_ Hpred]. rewrite Forall_forall in Hpred.
  split.
  - intros gt_path pred_path (p & Hp & Hpair)%list_elem_of_omap.
    unfold pair_of in Hpair.
    destruct (extract_id_from_filename (name p)) as [k|] eqn:Hk; [|done].
    destruct (gt_dict !! k) as [g|] eqn:Hg; [|done].
    simpl in Hpair. injection Hpair as <- <-.
    destruct (Hsome _ _ Hg) as [Hin Hgk].
    by exists g, p, k.
  - intros p (q & [= <-] & [Hnone Hq]%list_elem_of_filter)%list_elem_of_fmap.
    split; [done |]. destruct (Hpred p Hq) as [k Hk]. exists k.
    split; [done |]. intros g Hg Hgk.
    unfold pair_of in Hnone. rewrite Hk in Hnone.
    destruct (proj2 (Hdom k)) as [g' Hg']; [by exists g |].
    by rewrite Hg' in Hnone.
Qed.

Lemma prepare_data_sound_witness :
  prepare_data [gt_A; gt_B] [pred_A; pred_C] =
    ([CannotFindGt pred_C], Ok [(path gt_A, path pred_A)]) ∧
  (∃ gt_file pred_file key,
     gt_file ∈ [gt_A; gt_B] ∧ pred_file ∈ [pred_A; pred_C] ∧
     path gt_A = path gt_file ∧ path pred_A = path pred_file ∧
     extract_id_from_filename (name gt_file) = Ok key ∧
     extract_id_from_filename (name pred_file) = Ok key).
Proof.
  assert (prepare_data [gt_A; gt_B] [pred_A; pred_C] =
    ([CannotFindGt pred_C], Ok [(path gt_A, path pred_A)])) as Hrun
    by (by vm_compute).
  split; [exact Hrun |].
  apply (proj1 (prepare_data_sound _ _ _ _ Hrun)). by left.
Defined.

(** X10.  [prepare_data] returns exactly when every name in both lists is
    recognised; otherwise it raises the assertion and nothing else, and a
    ground-truth name that is not recognised stops it before a line is
    printed. *)
Theorem prepare_data_raises_iff (gt_files pred_files : list DirEntry) :
  (succeeds (snd (prepare_data gt_files pred_files)) ↔
     Forall recognised (gt_files ++ pred_files)) ∧
  (∀ e, snd (prepare_data gt_files pred_files) = Raise e →
        e = AssertionError) ∧
  (¬ Forall recognised gt_files →
     prepare_data gt_files pred_files = ([], Raise AssertionError)).
Proof.
  split_and!.
  - split.
    + intros [tuples Htuples].
      destruct (prepare_data gt_files pred_files) as [out r] eqn:Hrun.
      simpl in Htuples. subst r.
      by apply prepare_data_Ok in Hrun as (? & _ & ? & _).
    + intros [Hgt Hpred]%Forall_app. unfold prepare_data.
      destruct (gt_dict_from_succeeds ∅ _ Hgt) as [d ->].
      rewrite pair_loop_ok by done. by eexists.
  - intros e. unfold prepare_data.
    destruct (gt_dict_from ∅ gt_files) as [d|e'] eqn:Hd; simpl.
    + destruct (pair_loop d pred_files [] []) as [out r] eqn:Hloop.
      simpl. intros ->.
      assert (¬ Forall recognised pred_files) as Hnot.
      { intros Hall. by rewrite pair_loop_ok in Hloop. }
      apply (pair_loop_fails d _ [] []) in Hnot.
      rewrite Hloop in Hnot. simpl in Hnot. congruence.
    + intros [= <-]. by eapply gt_dict_from_raises.
  - intros Hnot. unfold prepare_data.
    destruct (gt_dict_from ∅ gt_files) as [d|e] eqn:Hd.
    + destruct Hnot. by eapply gt_dict_from_recognised.
    + by rewrite (gt_dict_from_raises _ _ _ Hd).
Qed.

Lemma NoDup_fmap_eq {A B : Type} (h : A → B) (l : list A) (x y : A) :
  NoDup (h <$> l) → x ∈ l → y ∈ l → h x = h y → x = y.
Proof.
  induction l as [|a l IH]; simpl.
  - by intros _ ?%elem_of_nil.
  - intros [Hnotin Hnodup]%NoDup_cons.
    intros [-> | Hx]%elem_of_cons [-> | Hy]%elem_of_cons Heq; [done | | |].
    + destruct Hnotin. rewrite Heq. apply list_elem_of_fmap. by exists y.
    + destruct Hnotin. rewrite <- Heq. apply list_elem_of_fmap. by exists x.
    + by apply IH.
Qed.

Lemma recognised_Permutation (l l' : list DirEntry) :
  l ≡ₚ l' → Forall recognised l → Forall recognised l'.
Proof.
  intros Hperm. rewrite !Forall_forall. intros Hall f Hf. apply Hall.
  by rewrite Hperm.
Qed.

(** X11.  Where the ground-truth files have keys that differ from one
    another, the order in which the scan enumerates them does not matter:
    [prepare_data] returns the same for every order. *)
Theorem prepare_data_gt_order (gt_files gt_files' pred_files : list DirEntry) :
  NoDup ((fun f => extract_id_from_filename (name f)) <$> gt_files) →
  gt_files ≡ₚ gt_files' →
  prepare_data gt_files pred_files = prepare_data gt_files' pred_files.
Proof.
  intros Hnodup Hperm. unfold prepare_data.
  destruct (gt_dict_from ∅ gt_files) as [d|e] eqn:Hd;
    destruct (gt_dict_from ∅ gt_files') as [d'|e'] eqn:Hd'.
  - f_equal. apply map_eq. intros k.
    destruct (gt_dict_from_empty _ _ Hd) as [Hdom Hsome].
    destruct (gt_dict_from_empty _ _ Hd') as [Hdom' Hsome'].
    destruct (d !! k) as [g|] eqn:Hg; destruct (d' !! k) as [g'|] eqn:Hg'.
    + destruct (Hsome _ _ Hg) as [Hin Hk].
      destruct (Hsome' _ _ Hg') as [Hin' Hk']. f_equal.
      apply (NoDup_fmap_eq _ gt_files _ _ Hnodup); [done | | congruence].
      by rewrite Hperm.
    + destruct (Hsome _ _ Hg) as [Hin Hk].
      destruct (proj2 (Hdom' k)) as [g' Hg'']; [|congruence].
      exists g. split; [by rewrite <- Hperm | done].
    + destruct (Hsome' _ _ Hg') as [Hin' Hk'].
      destruct (proj2 (Hdom k)) as [g Hg'']; [|congruence].
      exists g'. split; [by rewrite Hperm | done].
    + done.
  - apply gt_dict_from_recognised in Hd.
    apply (recognised_Permutation _ _ Hperm) in Hd.
    destruct (gt_dict_from_succeeds ∅ _ Hd) as [? ?]. congruence.
  - apply gt_dict_from_recognised in Hd'. symmetry in Hperm.
    apply (recognised_Permutation _ _ Hperm) in Hd'.
    destruct (gt_dict_from_succeeds ∅ _ Hd') as [? ?]. congruence.
  - by rewrite (gt_dict_from_raises _ _ _ Hd), (gt_dict_from_raises _ _ _ Hd').
Qed.

Lemma prepare_data_gt_order_witness :
  prepare_data [gt_A; gt_B] [pred_A; pred_C] =
  prepare_data [gt_B; gt_A] [pred_A; pred_C].
Proof.
  apply (prepare_data_gt_order [gt_A; gt_B] [gt_B; gt_A] [pred_A; pred_C]).
  - vm_compute. apply NoDup_cons. split; [|apply NoDup_singleton].
    intros Hin%list_elem_of_singleton. discriminate Hin.
  - apply Permutation_swap.
Defined.

(** X12.  The dataset that the constructor builds keeps the two folders
    and the height it was given, and its length and the number of lines
    printed add up to the number of [.jpg] and [.png] files found below the
    prediction folder. *)
Theorem EvalDataset_init_accounting (tree : pystr → list node)
    (gt pred : pystr) (height : Z) (out : list message)
    (self : EvalDataset) :
  EvalDataset_init tree gt pred height = (out, Ok self) →
  gt_folder self = gt ∧
  pred_folder self = pred ∧
  self_height self = height ∧
  (len self + Z.of_nat (length out))%Z =
    Z.of_nat (length (scan_files_in_dir (tree pred) jpg_png)).
Proof.
  unfold EvalDataset_init.
  destruct (prepare_data _ _) as [out' [tuples|]] eqn:Hrun; simpl;
    [|by inversion 1].
  intros [= <- <-]. split_and!; [done.. |]. unfold len. simpl.
  apply prepare_data_accounting in Hrun. lia.
Qed.

Lemma EvalDataset_init_accounting_witness :
  EvalDataset_init (fun _ => tree_gt) (lit "gt") (lit "pred") 512 =
    ([], Ok {| gt_folder := lit "gt"; pred_folder := lit "pred";
               self_height := 512;
               data := [(lit "gt/a_00000001.jpg", lit "gt/a_00000001.jpg");
                        (lit "gt/more/b_00000002.png",
                         lit "gt/more/b_00000002.png")] |}) ∧
  (2 + Z.of_nat (length (@nil message)))%Z =
    Z.of_nat (length (scan_files_in_dir tree_gt jpg_png)).
Proof.
  assert (EvalDataset_init (fun _ => tree_gt) (lit "gt") (lit "pred") 512 =
    ([], Ok {| gt_folder := lit "gt"; pred_folder := lit "pred";
               self_height := 512;
               data := [(lit "gt/a_00000001.jpg", lit "gt/a_00000001.jpg");
                        (lit "gt/more/b_00000002.png",
                         lit "gt/more/b_00000002.png")] |})) as Hrun
    by (by vm_compute).
  split; [exact Hrun |].
  exact (proj2 (proj2 (proj2 (EvalDataset_init_accounting _ _ _ _ _ _ Hrun)))).
Defined.

(** ** ResizePolicy and PairedSampleSource *)

(** Two sizes of the same aspect ratio scale to the same width. *)
Lemma scaled_width_same_ratio (w1 h1 w2 h2 H : Z) :
  (h1 ≠ 0 → h2 ≠ 0 → w1 * h2 = w2 * h1 →
   w1 * H ÷ h1 = w2 * H ÷ h2)%Z.
Proof.
  intros Hh1 Hh2 Hratio.
  rewrite <- (Z.quot_mul_cancel_r (w1 * H) h1 h2) by done.
  rewrite <- (Z.quot_mul_cancel_r (w2 * H) h2 h1) by done.
  assert (w1 * H * h2 = w2 * H * h1)%Z as ->.
  { transitivity (H * (w1 * h2))%Z; [ring | rewrite Hratio; ring]. }
  by rewrite (Z.mul_comm h1 h2).
Qed.

Section GetitemFacts.
Context {Pixels Values : Type}.
Variable LANCZOS : Image Pixels → Z * Z → Pixels.
Variable Image_open : pystr → result (Image Pixels).
Variable to_tensor_channels : Image Pixels → Z.
Variable to_tensor_values : Image Pixels → Values.

Local Open Scope Z_scope.

(** X13.  When the two images of a Pair have the same aspect ratio, the
    target height is at least 1 and the truncated width is at least 1, the
    two tensors of the item have the same height and the same width. *)
Theorem getitem_same_ratio (self : EvalDataset) (idx : Z)
    (gt_path pred_path : pystr) (gt0 pred0 : Image Pixels) :
  0 ≤ idx < len self →
  data self !! Z.to_nat idx = Some (gt_path, pred_path) →
  Image_open gt_path = Ok gt0 → Image_open pred_path = Ok pred0 →
  0 < width gt0 → 0 < height gt0 → 0 < width pred0 → 0 < height pred0 →
  1 ≤ self_height self →
  height gt0 ≤ width gt0 * self_height self →
  width gt0 * height pred0 = width pred0 * height gt0 →
  ∃ gt pred,
    getitem LANCZOS Image_open to_tensor_channels to_tensor_values self idx
      = Ok (gt, pred) ∧
    t_height gt = t_height pred ∧ t_width gt = t_width pred.
Proof.
  intros Hidx Hpair Hgt Hpred Hwg Hhg Hwp Hhp HH Hwide Hratio.
  assert (height pred0 ≤ width pred0 * self_height self) as Hwide'.
  { assert (width pred0 * self_height self * height gt0 =
            width gt0 * self_height self * height pred0) as Hcross.
    { transitivity (self_height self * (width pred0 * height gt0));
        [ring | rewrite <- Hratio; ring]. }
    nia. }
  rewrite getitem_second_resize_skipped. unfold getitem_single_resize.
  destruct (py_index_in_range (data self) idx Hidx) as (pair & -> & Hpair').
  rewrite Hpair in Hpair'. injection Hpair' as <-. simpl.
  rewrite Hgt, Hpred. simpl. rewrite !resize_Ok by done. simpl.
  eexists _, _. split_and!; [done | done |]. simpl.
  apply scaled_width_same_ratio; lia.
Qed.

(** X14.  [__getitem__] takes the indices of a Python list: an index from
    [-len] to [-1] gives the item at [idx + len], and an index outside
    [-len .. len - 1] raises [IndexError] before any file is opened. *)
Theorem getitem_index (self : EvalDataset) (idx : Z) :
  (idx < - len self ∨ len self ≤ idx →
   getitem LANCZOS Image_open to_tensor_channels to_tensor_values self idx
     = Raise IndexError) ∧
  (- len self ≤ idx < 0 →
   getitem LANCZOS Image_open to_tensor_channels to_tensor_values self idx =
   getitem LANCZOS Image_open to_tensor_channels to_tensor_values self
     (idx + len self)).
Proof.
  unfold getitem, len. split.
  - intros Hout.
    assert (py_index (data self) idx = Raise IndexError) as ->; [|done].
    unfold py_index. destruct (Z.ltb_spec idx 0).
    + destruct (Z.leb_spec 0 (idx + Z.of_nat (length (data self))));
        [lia | done].
    + destruct (Z.leb_spec 0 idx); [|lia].
      destruct (Z.ltb_spec idx (Z.of_nat (length (data self)))); [lia | done].
  - intros Hneg.
    assert (py_index (data self) idx =
            py_index (data self) (idx + Z.of_nat (length (data self))))
      as ->; [|done].
    unfold py_index. destruct (Z.ltb_spec idx 0); [|lia].
    by destruct (Z.ltb_spec (idx + Z.of_nat (length (data self))) 0); [lia |].
Qed.
End GetitemFacts.

Lemma getitem_same_ratio_witness :
  getitem no_pixels open_same_ratio (fun _ => 3%Z) (fun _ => tt)
    dataset_300 0 =
    Ok ({| t_channels := 3; t_height := 300; t_width := 225;
           t_values := tt |},
        {| t_channels := 3; t_height := 300; t_width := 225;
           t_values := tt |}) ∧
  ∃ gt pred : Tensor unit,
    getitem no_pixels open_same_ratio (fun _ => 3%Z) (fun _ => tt)
      dataset_300 0 = Ok (gt, pred) ∧
    t_height gt = t_height pred ∧ t_width gt = t_width pred.
Proof.
  split; [reflexivity |].
  apply (getitem_same_ratio no_pixels open_same_ratio (fun _ => 3%Z)
           (fun _ => tt) dataset_300 0 (lit "gt/a_00000001.jpg")
           (lit "pred/out_00000001_x.png") photo_768x1024 photo_384x512);
    try reflexivity; vm_compute; try split; congruence.
Defined.

(** ** The bulk exact-resize pass *)

Section CopyFacts.
Context {Pixels : Type}.
Variable LANCZOS : Image Pixels → Z * Z → Pixels.
Variable decode : bytes → result (Image Pixels).
Variable encode : pystr → Image Pixels → result bytes.

Lemma path_exists_lookup (fs : filesystem) (folder file : pystr) :
  path_exists fs folder file = true ↔
  ∃ entries x, fs !! folder = Some entries ∧ entries !! file = Some x.
Proof.
  unfold path_exists. destruct (fs !! folder) as [entries|]; split.
  - intros [x Hx]%bool_decide_eq_true. by exists entries, x.
  - intros (? & x & [= <-] & Hx). apply bool_decide_eq_true. by exists x.
  - done.
  - by intros (? & ? & ? & _).
Qed.

(** Whatever its outcome, the loop touches no folder but the new one,
    keeps every entry that the new folder has, and only adds to the list of
    files saved. *)
Lemma copy_loop_preserves (gt_folder new_folder : pystr) (height width : Z)
    (files : list pystr) (fs fs' : filesystem)
    (written written' : list (pystr * pystr)) (r : result unit) :
  copy_loop LANCZOS decode encode gt_folder new_folder height width files
    fs written = (fs', written', r) →
  (∀ folder, folder ≠ new_folder → fs' !! folder = fs !! folder) ∧
  (∀ entries file x,
     fs !! new_folder = Some entries → entries !! file = Some x →
     ∃ entries', fs' !! new_folder = Some entries' ∧
                 entries' !! file = Some x) ∧
  (∃ more, written' = written ++ more).
Proof.
  revert fs written. induction files as [|file rest IH]; intros fs written;
    simpl.
  - intros [= <- <- <-]. split_and!; [done | by eauto |].
    exists []. by rewrite app_nil_r.
  - destruct (path_exists fs new_folder file) eqn:Hexists; [apply IH |].
    destruct (Image_open_at decode fs gt_folder file) as [img|].
    2:{ intros [= <- <- <-]. split_and!; [done | by eauto |].
        exists []. by rewrite app_nil_r. }
    destruct (Image_resize LANCZOS img (width, height)) as [img'|].
    2:{ intros [= <- <- <-]. split_and!; [done | by eauto |].
        exists []. by rewrite app_nil_r. }
    destruct (Image_save encode fs _ new_folder file) as [fs1 [u1|]]
      eqn:Hsave.
    2:{ unfold Image_save in Hsave.
        assert (fs1 = fs) as ->.
        { destruct (encode file _); [|by inversion Hsave].
          destruct (fs !! new_folder) as [entries|]; [|by inversion Hsave].
          destruct (entries !! file) as [[]|]; by inversion Hsave. }
        intros [= <- <- <-]. split_and!; [done | by eauto |].
        exists []. by rewrite app_nil_r. }
    apply Image_save_Ok in Hsave as (entries0 & content & Hentries & ->).
    intros (Hother & Hkeep & more & ->)%IH. split_and!.
    + intros folder Hne. by rewrite Hother, lookup_insert_ne.
    + intros entries f x Hentries' Hx. rewrite Hentries in Hentries'.
      injection Hentries' as ->.
      apply (Hkeep (<[file := RegularFile content]> entries)).
      * by rewrite lookup_insert_eq.
      * rewrite lookup_insert_ne; [done |]. intros <-.
        assert (path_exists fs new_folder file = true); [|congruence].
        apply path_exists_lookup. by exists entries, x.
    + exists ((new_folder, file) :: more). by rewrite <- app_assoc.
Qed.

(** X15.  For a ground-truth folder whose path ends in a name, whatever
    the outcome of the pass, the entries of the ground-truth folder stay as
    they were, and every entry that the sibling folder already has is kept:
    an existing target is never written again. *)
Theorem copy_resize_gt_preserves (fs fs' : filesystem) (gt_folder : pystr)
    (h w : Z) (written : list (pystr * pystr)) (r : result pystr) :
  names_folder gt_folder →
  copy_resize_gt LANCZOS decode encode fs gt_folder h w = (fs', written, r) →
  fs' !! gt_folder = fs !! gt_folder ∧
  (∀ entries file x,
     fs !! (gt_folder ++ lit "_" ++ str h) = Some entries →
     entries !! file = Some x →
     ∃ entries', fs' !! (gt_folder ++ lit "_" ++ str h) = Some entries' ∧
                 entries' !! file = Some x).
Proof.
  intros _. unfold copy_resize_gt.
  pose proof (new_folder_fresh gt_folder h) as Hfresh.
  set (nf := gt_folder ++ lit "_" ++ str h) in *.
  set (fs0 := if negb (folder_exists fs nf) then makedirs fs nf else fs).
  assert ((∀ folder, folder ≠ nf → fs0 !! folder = fs !! folder) ∧
          (∀ entries, fs !! nf = Some entries → fs0 !! nf = Some entries))
    as [Hother0 Hkeep0].
  { unfold fs0, folder_exists, makedirs.
    destruct (bool_decide_reflect (is_Some (fs !! nf))) as [Hnf | Hnf];
      simpl; [done |].
    destruct (fs !! nf) as [entries|] eqn:Hlookup.
    - destruct Hnf. by eexists.
    - split; [|done]. intros folder Hne. by rewrite lookup_insert_ne. }
  assert (∀ fs1 written1 (r1 : result pystr),
            (∀ folder, folder ≠ nf → fs1 !! folder = fs0 !! folder) →
            (∀ entries file x,
               fs0 !! nf = Some entries → entries !! file = Some x →
               ∃ entries', fs1 !! nf = Some entries' ∧
                           entries' !! file = Some x) →
            (fs1, written1, r1) = (fs', written, r) →
            fs' !! gt_folder = fs !! gt_folder ∧
            (∀ entries file x,
               fs !! nf = Some entries → entries !! file = Some x →
               ∃ entries', fs' !! nf = Some entries' ∧
                           entries' !! file = Some x)) as Hfinish.
  { intros fs1 written1 r1 Hother Hkeep [= <- <- <-]. split.
    - by rewrite Hother, Hother0.
    - intros entries file x Hentries Hx. eapply Hkeep; eauto. }
  destruct (listdir fs0 gt_folder) as [files|].
  - destruct (copy_loop _ _ _ _ _ _ _ _ _ _) as [[fs1 written1] r1] eqn:Hloop.
    apply copy_loop_preserves in Hloop as (Hother & Hkeep & _).
    by apply Hfinish.
  - apply Hfinish; [done | by eauto].
Qed.
End CopyFacts.

Lemma copy_resize_gt_preserves_witness :
  names_folder (lit "gt") ∧
  resumed_pass = (resumed_pass.1.1, [(lit "gt_512", lit "b_00000002.jpg")],
                  Ok (lit "gt_512")) ∧
  resumed_pass.1.1 !! lit "gt" = fs_resume !! lit "gt" ∧
  ∃ entries',
    resumed_pass.1.1 !! (lit "gt" ++ lit "_" ++ str 512) = Some entries' ∧
    entries' !! lit "a_00000001.jpg" = Some (RegularFile [Byte.x09]).
Proof.
  assert (names_folder (lit "gt")) as Hname by (split; by vm_compute).
  assert (resumed_pass =
          (resumed_pass.1.1, [(lit "gt_512", lit "b_00000002.jpg")],
           Ok (lit "gt_512"))) as Hrun by (by vm_compute).
  destruct (copy_resize_gt_preserves raw_filter raw_decode raw_encode
              fs_resume _ (lit "gt") 512 384 _ _ Hname Hrun)
    as (Hgt & Hkeep).
  split_and!; [exact Hname | exact Hrun | exact Hgt |].
  apply (Hkeep {[ lit "a_00000001.jpg" := RegularFile [Byte.x09] ]});
    by vm_compute.
Defined.

Lemma filter_ext_in {A : Type} (P Q : A → Prop)
    `{!∀ a, Decision (P a)} `{!∀ a, Decision (Q a)} (l : list A) :
  (∀ a, a ∈ l → P a ↔ Q a) → filter P l = filter Q l.
Proof.
  induction l as [|a l IH]; intros Hext; [done |].
  rewrite !filter_cons.
  destruct (decide (P a)) as [HP | HP]; destruct (decide (Q a)) as [HQ | HQ].
  - f_equal. apply IH. intros b Hb. apply Hext. by right.
  - destruct HQ. by apply (Hext a); [left |].
  - destruct HP. by apply (Hext a); [left |].
  - apply IH. intros b Hb. apply Hext. by right.
Qed.

Section PassFacts.
Context {Pixels : Type}.
Variable LANCZOS : Image Pixels → Z * Z → Pixels.
Variable decode : bytes → result (Image Pixels).
Variable encode : pystr → Image Pixels → result bytes.

(** The folder that the pass works on: the new folder is there. *)
Lemma makedirs_if_missing (fs : filesystem) (gt_folder nf : pystr) :
  gt_folder ≠ nf →
  let fs0 := if negb (folder_exists fs nf) then makedirs fs nf else fs in
  fs0 !! gt_folder = fs !! gt_folder ∧
  is_Some (fs0 !! nf) ∧
  (fs !! nf = None → fs0 = <[nf := ∅]> fs) ∧
  (is_Some (fs !! nf) → fs0 = fs) ∧
  (∀ file, path_exists fs0 nf file = path_exists fs nf file).
Proof.
  intros Hfresh. unfold folder_exists, makedirs, path_exists.
  destruct (bool_decide_reflect (is_Some (fs !! nf))) as [Hnf | Hnf]; simpl.
  - split_and!; [done | done | | done | done].
    intros Hnone. rewrite Hnone in Hnf. by destruct Hnf.
  - destruct (fs !! nf) as [entries|] eqn:Hlookup; [destruct Hnf; by eexists |].
    rewrite lookup_insert_eq, lookup_insert_ne by done.
    split_and!; [done | by eexists | done | by intros [? ?] |].
    intros file. rewrite lookup_empty. apply bool_decide_eq_false_2.
    by intros [? ?].
Qed.

Lemma copy_loop_written (gt_folder new_folder : pystr) (height width : Z)
    (files : list pystr) (fs fs' : filesystem)
    (written written' : list (pystr * pystr)) (u : unit) :
  NoDup files →
  copy_loop LANCZOS decode encode gt_folder new_folder height width files
    fs written = (fs', written', Ok u) →
  written' =
    written ++ ((fun file => (new_folder, file)) <$>
                  filter (fun file => path_exists fs new_folder file = false)
                    files).
Proof.
  intros Hnodup. revert fs written.
  induction Hnodup as [|file rest Hnotin _ IH]; intros fs written; simpl.
  - intros [= <- <-]. by rewrite app_nil_r.
  - rewrite filter_cons.
    destruct (path_exists fs new_folder file) eqn:Hexists.
    + rewrite decide_False by done. apply IH.
    + rewrite decide_True by done.
      destruct (Image_open_at decode fs gt_folder file) as [img|];
        [|by inversion 1].
      destruct (Image_resize LANCZOS img (width, height)) as [img'|];
        [|by inversion 1].
      destruct (Image_save encode fs _ new_folder file) as [fs1 [u1|]]
        eqn:Hsave; [|by inversion 1].
      apply Image_save_Ok in Hsave as (entries & content & Hentries & ->).
      intros ->%IH. rewrite <- app_assoc. simpl. do 3 f_equal.
      apply filter_ext_in. intros f Hf.
      rewrite path_exists_insert by done.
      rewrite (bool_decide_eq_false_2 (f = file)); [done |].
      by intros ->.
Qed.

(** X16.  A pass that completes has saved exactly the entries of the
    ground-truth folder that the sibling folder did not have, once each and
    in the order of the listing. *)
Theorem copy_resize_gt_written (fs fs' : filesystem)
    (gt_folder new_folder : pystr) (height width : Z)
    (written : list (pystr * pystr)) :
  copy_resize_gt LANCZOS decode encode fs gt_folder height width
    = (fs', written, Ok new_folder) →
  ∃ files,
    listdir fs gt_folder = Ok files ∧
    written =
      (fun file => (new_folder, file)) <$>
        filter (fun file => path_exists fs new_folder file = false) files.
Proof.
  unfold copy_resize_gt.
  pose proof (new_folder_fresh gt_folder height) as Hfresh.
  set (nf := gt_folder ++ lit "_" ++ str height) in *.
  destruct (makedirs_if_missing fs gt_folder nf Hfresh)
    as (Hgt & _ & _ & _ & Hexists).
  set (fs0 := if negb (folder_exists fs nf) then makedirs fs nf else fs) in *.
  assert (listdir fs0 gt_folder = listdir fs gt_folder) as Hlist.
  { unfold listdir. by rewrite Hgt. }
  rewrite Hlist.
  destruct (listdir fs gt_folder) as [files|] eqn:Hfiles; [|by inversion 1].
  destruct (copy_loop _ _ _ _ _ _ _ _ _ _) as [[fs1 written1] r1] eqn:Hloop.
  destruct r1 as [[]|]; simpl; [|by inversion 1].
  intros [= <- <- <-]. exists files. split; [done |].
  apply copy_loop_written in Hloop.
  - rewrite Hloop. simpl. f_equal. apply filter_ext_in.
    intros f _. by rewrite Hexists.
  - unfold listdir in Hfiles.
    destruct (fs !! gt_folder) as [entries|]; [|done].
    injection Hfiles as <-. apply NoDup_fst_map_to_list.
Qed.

Lemma Image_save_encoded (fs fs' : filesystem) (img : Image Pixels)
    (folder file : pystr) (u : unit) :
  Image_save encode fs img folder file = (fs', Ok u) →
  ∃ entries content,
    encode file img = Ok content ∧ fs !! folder = Some entries ∧
    fs' = <[folder := <[file := RegularFile content]> entries]> fs.
Proof.
  unfold Image_save. destruct (encode file img) as [content|]; [|by inversion 1].
  destruct (fs !! folder) as [entries|]; [|by inversion 1].
  destruct (entries !! file) as [[]|]; inversion 1; eauto.
Qed.

Lemma Image_open_at_Ok (fs : filesystem) (folder file : pystr)
    (img : Image Pixels) :
  Image_open_at decode fs folder file = Ok img →
  ∃ entries content,
    fs !! folder = Some entries ∧
    entries !! file = Some (RegularFile content) ∧ decode content = Ok img.
Proof.
  unfold Image_open_at.
  destruct (fs !! folder) as [entries|] eqn:Hfolder; [|done].
  destruct (entries !! file) as [[content|]|] eqn:Hfile; [|done..].
  intros Hdecode. by exists entries, content.
Qed.

Lemma copy_loop_saved (gt_folder new_folder : pystr) (h w : Z)
    (files : list pystr) (fs fs' : filesystem)
    (written written' : list (pystr * pystr)) (r : result unit) :
  copy_loop LANCZOS decode encode gt_folder new_folder h w files
    fs written = (fs', written', r) →
  ∀ saved, saved ∈ written' →
    saved ∈ written ∨
    ∃ file img content entries',
      saved = (new_folder, file) ∧ width img = w ∧ height img = h ∧
      encode file img = Ok content ∧
      fs' !! new_folder = Some entries' ∧
      entries' !! file = Some (RegularFile content).
Proof.
  revert fs written. induction files as [|file rest IH]; intros fs written;
    simpl.
  - intros [= <- <- <-] saved Hsaved. by left.
  - destruct (path_exists fs new_folder file) eqn:Hexists; [apply IH |].
    destruct (Image_open_at decode fs gt_folder file) as [img|];
      [|intros [= <- <- <-] saved Hsaved; by left].
    destruct (Image_resize LANCZOS img (w, h)) as [img'|] eqn:Hresize;
      [|intros [= <- <- <-] saved Hsaved; by left].
    apply Image_resize_size in Hresize as [Hwidth Hheight].
    destruct (Image_save encode fs _ new_folder file) as [fs1 [u1|]]
      eqn:Hsave; [|intros [= <- <- <-] saved Hsaved; by left].
    apply Image_save_encoded in Hsave
      as (entries & content & Hencode & Hentries & ->).
    intros Hloop saved Hsaved.
    destruct (IH _ _ Hloop saved Hsaved) as [Hold | Hnew]; [|by right].
    apply elem_of_app in Hold as [Hold | ->%list_elem_of_singleton];
      [by left | right].
    apply copy_loop_preserves in Hloop as (_ & Hkeep & _).
    destruct (Hkeep (<[file := RegularFile content]> entries) file
                (RegularFile content)) as (entries' & Hentries' & Hfile).
    { by rewrite lookup_insert_eq. }
    { by rewrite lookup_insert_eq. }
    exists file, img', content, entries'. by split_and!.
Qed.

(** X17.  Every file that the pass saves, whatever its outcome, is in the
    sibling folder and holds the encoding of an image of exactly the width
    and the height asked. *)
Theorem copy_resize_gt_saved (fs fs' : filesystem) (gt_folder : pystr)
    (h w : Z) (written : list (pystr * pystr)) (r : result pystr)
    (folder file : pystr) :
  copy_resize_gt LANCZOS decode encode fs gt_folder h w = (fs', written, r) →
  (folder, file) ∈ written →
  folder = gt_folder ++ lit "_" ++ str h ∧
  ∃ img content entries',
    width img = w ∧ height img = h ∧ encode file img = Ok content ∧
    fs' !! folder = Some entries' ∧
    entries' !! file = Some (RegularFile content).
Proof.
  unfold copy_resize_gt.
  set (nf := gt_folder ++ lit "_" ++ str h).
  set (fs0 := if negb (folder_exists fs nf) then makedirs fs nf else fs).
  destruct (listdir fs0 gt_folder) as [files|];
    [|by intros [= <- <- <-] ?%elem_of_nil].
  destruct (copy_loop _ _ _ _ _ _ _ _ _ _) as [[fs1 written1] r1] eqn:Hloop.
  intros [= <- <- <-] Hsaved.
  destruct (copy_loop_saved _ _ _ _ _ _ _ _ _ _ Hloop _ Hsaved)
    as [?%elem_of_nil | (file' & img & content & entries' & [= -> ->] & Hrest)];
    [done |].
  split; [done |]. by exists img, content, entries'.
Qed.

(** A completed loop found every listed file in the new folder or opened
    it as a regular file of the ground-truth folder. *)
Lemma copy_loop_regular (gt_folder new_folder : pystr) (h w : Z)
    (files : list pystr) (fs fs' : filesystem)
    (written written' : list (pystr * pystr)) (u : unit) :
  gt_folder ≠ new_folder →
  copy_loop LANCZOS decode encode gt_folder new_folder h w files
    fs written = (fs', written', Ok u) →
  ∀ file, file ∈ files →
    path_exists fs new_folder file = true ∨
    ∃ entries content,
      fs !! gt_folder = Some entries ∧
      entries !! file = Some (RegularFile content).
Proof.
  intros Hfresh. revert fs written.
  induction files as [|file rest IH]; intros fs written; simpl.
  - by intros _ f ?%elem_of_nil.
  - destruct (path_exists fs new_folder file) eqn:Hexists.
    + intros Hloop f [-> | Hf]%elem_of_cons; [by left | by eapply IH].
    + destruct (Image_open_at decode fs gt_folder file) as [img|] eqn:Hopen;
        [|by inversion 1].
      apply Image_open_at_Ok in Hopen as (entries & content & Hgt & Hfile & _).
      destruct (Image_resize LANCZOS img (w, h)) as [img'|];
        [|by inversion 1].
      destruct (Image_save encode fs _ new_folder file) as [fs1 [u1|]]
        eqn:Hsave; [|by inversion 1].
      apply Image_save_Ok in Hsave as (entries0 & content0 & Hentries & ->).
      intros Hloop f [-> | Hf]%elem_of_cons; [right; by eauto |].
      destruct (IH _ _ Hloop f Hf) as [Hthere | Hregular].
      * rewrite path_exists_insert in Hthere by done.
        apply orb_true_iff in Hthere as [->%bool_decide_eq_true | ?];
          [right; by eauto | by left].
      * right. by rewrite lookup_insert_ne in Hregular.
Qed.

(** X19.  The pass does not descend: a sub-directory among the entries of
    the ground-truth folder that the sibling folder has no entry for makes
    it raise. *)
Theorem copy_resize_gt_subdirectory (fs : filesystem) (gt_folder : pystr)
    (h w : Z) (entries : gmap pystr dirent) (file : pystr) :
  fs !! gt_folder = Some entries →
  entries !! file = Some SubDirectory →
  path_exists fs (gt_folder ++ lit "_" ++ str h) file = false →
  ∃ fs' written e,
    copy_resize_gt LANCZOS decode encode fs gt_folder h w
      = (fs', written, Raise e).
Proof.
  intros Hgt Hsub Habsent.
  destruct (copy_resize_gt LANCZOS decode encode fs gt_folder h w)
    as [[fs' written] [new_folder|e]] eqn:Hrun; [exfalso | by eauto].
  revert Hrun. unfold copy_resize_gt.
  pose proof (new_folder_fresh gt_folder h) as Hfresh.
  set (nf := gt_folder ++ lit "_" ++ str h) in *.
  destruct (makedirs_if_missing fs gt_folder nf Hfresh)
    as (Hgt0 & _ & _ & _ & Hexists).
  set (fs0 := if negb (folder_exists fs nf) then makedirs fs nf else fs) in *.
  unfold listdir. rewrite Hgt0, Hgt.
  destruct (copy_loop _ _ _ _ _ _ _ _ _ _) as [[fs1 written1] r1] eqn:Hloop.
  destruct r1 as [[]|]; simpl; [|by inversion 1]. intros _.
  destruct (copy_loop_regular _ _ _ _ _ _ _ _ _ _ Hfresh Hloop file)
    as [Hthere | (entries' & content & Hgt' & Hfile)].
  - apply list_elem_of_fmap. exists (file, SubDirectory).
    split; [done |]. by apply elem_of_map_to_list.
  - rewrite Hexists in Hthere. congruence.
  - rewrite Hgt0, Hgt in Hgt'. injection Hgt' as <-. congruence.
Qed.
End PassFacts.

Lemma copy_resize_gt_written_witness :
  resumed_pass = (resumed_pass.1.1, [(lit "gt_512", lit "b_00000002.jpg")],
                  Ok (lit "gt_512")) ∧
  ∃ files,
    listdir fs_resume (lit "gt") = Ok files ∧
    [(lit "gt_512", lit "b_00000002.jpg")] =
      (fun file => (lit "gt_512", file)) <$>
        filter (fun file => path_exists fs_resume (lit "gt_512") file = false)
          files.
Proof.
  assert (resumed_pass =
          (resumed_pass.1.1, [(lit "gt_512", lit "b_00000002.jpg")],
           Ok (lit "gt_512"))) as Hrun by (by vm_compute).
  split; [exact Hrun |].
  exact (copy_resize_gt_written raw_filter raw_decode raw_encode fs_resume _
           (lit "gt") _ 512 384 _ Hrun).
Defined.

Lemma copy_resize_gt_saved_witness :
  resumed_pass = (resumed_pass.1.1, [(lit "gt_512", lit "b_00000002.jpg")],
                  Ok (lit "gt_512")) ∧
  lit "gt_512" = lit "gt" ++ lit "_" ++ str 512 ∧
  ∃ (img : Image bytes) content entries',
    width img = 384%Z ∧ height img = 512%Z ∧
    raw_encode (lit "b_00000002.jpg") img = Ok content ∧
    resumed_pass.1.1 !! lit "gt_512" = Some entries' ∧
    entries' !! lit "b_00000002.jpg" = Some (RegularFile content).
Proof.
  assert (resumed_pass =
          (resumed_pass.1.1, [(lit "gt_512", lit "b_00000002.jpg")],
           Ok (lit "gt_512"))) as Hrun by (by vm_compute).
  split; [exact Hrun |].
  apply (copy_resize_gt_saved raw_filter raw_decode raw_encode fs_resume _
           (lit "gt") 512 384 _ _ (lit "gt_512") (lit "b_00000002.jpg") Hrun).
  by left.
Defined.

Lemma copy_resize_gt_subdirectory_witness :
  snd (copy_resize_gt raw_filter raw_decode raw_encode fs_subdir
         (lit "gt") 512 384) = Raise IsADirectoryError ∧
  ∃ fs' written e,
    copy_resize_gt raw_filter raw_decode raw_encode fs_subdir
      (lit "gt") 512 384 = (fs', written, Raise e).
Proof.
  split; [by vm_compute |].
  apply (copy_resize_gt_subdirectory raw_filter raw_decode raw_encode
           fs_subdir (lit "gt") 512 384
           {[ lit "a_00000001.jpg" := RegularFile [Byte.x01; Byte.x02];
              lit "more" := SubDirectory ]} (lit "more"));
    by vm_compute.
Defined.

(** ** The orchestrator and the entry point *)

Section OrchestratorFacts.
Context {Pixels : Type}.
Variable LANCZOS : Image Pixels → Z * Z → Pixels.
Variable decode : bytes → result (Image Pixels).
Variable encode : pystr → Image Pixels → result bytes.
Variable Image_size : bytes → result (Z * Z).

(** A pass that completed returns the sibling folder, which then has an
    entry for every entry of the ground-truth folder. *)
Lemma copy_resize_gt_complete (fs fs' : filesystem)
    (gt_folder new_folder : pystr) (h w : Z)
    (written : list (pystr * pystr)) (files : list pystr) :
  copy_resize_gt LANCZOS decode encode fs gt_folder h w
    = (fs', written, Ok new_folder) →
  listdir fs gt_folder = Ok files →
  new_folder = gt_folder ++ lit "_" ++ str h ∧
  ∀ file, file ∈ files → path_exists fs' new_folder file = true.
Proof.
  unfold copy_resize_gt.
  pose proof (new_folder_fresh gt_folder h) as Hfresh.
  set (nf := gt_folder ++ lit "_" ++ str h) in *.
  destruct (makedirs_if_missing fs gt_folder nf Hfresh) as (Hgt & _).
  set (fs0 := if negb (folder_exists fs nf) then makedirs fs nf else fs) in *.
  intros Hrun Hfiles.
  assert (listdir fs0 gt_folder = Ok files) as Hfiles0.
  { unfold listdir in *. by rewrite Hgt. }
  rewrite Hfiles0 in Hrun.
  destruct (copy_loop _ _ _ _ _ _ _ _ _ _) as [[fs1 written1] r1] eqn:Hloop.
  destruct r1 as [[]|]; simpl in Hrun; [|by inversion Hrun].
  injection Hrun as <- <- <-. split; [done |].
  by destruct (copy_loop_Ok _ _ _ _ _ _ _ _ _ _ _ _ _ Hfresh Hloop)
    as (_ & _ & _ & Hall).
Qed.

(** X20.  [eval] compares the heights of the first listed file of each
    folder and of no other: when they are equal it keeps the ground-truth
    folder, saves nothing and leaves the file system as it is. *)
Theorem eval_gt_folder_same_height (fs : filesystem)
    (gt_folder pred_folder pred_sample gt_sample : pystr)
    (pred_rest gt_rest : list pystr) (w w' h : Z) :
  listdir fs pred_folder = Ok (pred_sample :: pred_rest) →
  listdir fs gt_folder = Ok (gt_sample :: gt_rest) →
  Image_size_at Image_size fs pred_folder pred_sample = Ok (w, h) →
  Image_size_at Image_size fs gt_folder gt_sample = Ok (w', h) →
  eval_gt_folder LANCZOS decode encode Image_size fs gt_folder pred_folder
    = (fs, [], Ok (gt_folder, h)).
Proof.
  intros Hpred Hgt Himg Hgt_img. unfold eval_gt_folder.
  rewrite Hpred, Hgt. simpl. rewrite Himg, Hgt_img. simpl.
  by rewrite bool_decide_eq_false_2 by (intros Hne; by apply Hne).
Qed.

(** X21.  When the two heights differ and the resize pass completes,
    [eval] goes on with the sibling folder named by the height of the
    prediction sample, which has an entry for every entry of the
    ground-truth folder, and with that height. *)
Theorem eval_gt_folder_redirect (fs fs' : filesystem)
    (gt_folder pred_folder pred_sample gt_sample folder : pystr)
    (pred_rest gt_rest : list pystr) (w w' h h' height : Z)
    (written : list (pystr * pystr)) :
  listdir fs pred_folder = Ok (pred_sample :: pred_rest) →
  listdir fs gt_folder = Ok (gt_sample :: gt_rest) →
  Image_size_at Image_size fs pred_folder pred_sample = Ok (w, h) →
  Image_size_at Image_size fs gt_folder gt_sample = Ok (w', h') →
  h ≠ h' →
  eval_gt_folder LANCZOS decode encode Image_size fs gt_folder pred_folder
    = (fs', written, Ok (folder, height)) →
  folder = gt_folder ++ lit "_" ++ str h ∧ height = h ∧
  copy_resize_gt LANCZOS decode encode fs gt_folder h w
    = (fs', written, Ok folder) ∧
  ∀ file, file ∈ gt_sample :: gt_rest → path_exists fs' folder file = true.
Proof.
  intros Hpred Hgt Himg Hgt_img Hne. unfold eval_gt_folder.
  rewrite Hpred, Hgt. simpl. rewrite Himg, Hgt_img. simpl.
  rewrite bool_decide_eq_true_2 by done.
  destruct (copy_resize_gt LANCZOS decode encode fs gt_folder h w)
    as [[fs1 written1] [nf|]] eqn:Hrun; simpl; [|by inversion 1].
  intros [= <- <- <- <-].
  destruct (copy_resize_gt_complete _ _ _ _ _ _ _ _ Hrun Hgt) as [-> Hall].
  by split_and!.
Qed.

(** X22.  On an empty prediction folder, or an empty ground-truth folder
    beside a prediction folder that is not empty, [eval] raises
    [IndexError] before anything is opened or written. *)
Theorem eval_gt_folder_empty (fs : filesystem)
    (gt_folder pred_folder : pystr) :
  listdir fs pred_folder = Ok [] ∨
  ((∃ pred_sample pred_rest,
      listdir fs pred_folder = Ok (pred_sample :: pred_rest)) ∧
   listdir fs gt_folder = Ok []) →
  eval_gt_folder LANCZOS decode encode Image_size fs gt_folder pred_folder
    = (fs, [], Raise IndexError).
Proof.
  unfold eval_gt_folder.
  intros [-> | [(pred_sample & pred_rest & ->) ->]]; done.
Qed.
End OrchestratorFacts.

Lemma eval_gt_folder_same_height_witness :
  eval_gt_folder raw_filter raw_decode raw_encode raw_size fs_eval
    (lit "gt") (lit "same") = (fs_eval, [], Ok (lit "gt", 1%Z)).
Proof.
  apply (eval_gt_folder_same_height raw_filter raw_decode raw_encode raw_size
           fs_eval (lit "gt") (lit "same") (lit "out_00000001.png")
           (lit "a_00000001.jpg") [] [] 2 2 1); by vm_compute.
Defined.

Lemma eval_gt_folder_redirect_witness :
  redirected_eval =
    (redirected_eval.1.1, [(lit "gt_3", lit "a_00000001.jpg")],
     Ok (lit "gt_3", 3%Z)) ∧
  lit "gt_3" = lit "gt" ++ lit "_" ++ str 3 ∧
  ∀ file, file ∈ [lit "a_00000001.jpg"] →
          path_exists redirected_eval.1.1 (lit "gt_3") file = true.
Proof.
  assert (redirected_eval =
    (redirected_eval.1.1, [(lit "gt_3", lit "a_00000001.jpg")],
     Ok (lit "gt_3", 3%Z))) as Hrun by (by vm_compute).
  split; [exact Hrun |].
  destruct (eval_gt_folder_redirect raw_filter raw_decode raw_encode raw_size
              fs_eval redirected_eval.1.1 (lit "gt") (lit "pred")
              (lit "out_00000001.png") (lit "a_00000001.jpg") (lit "gt_3")
              [] [] 2 2 3 1 3 [(lit "gt_3", lit "a_00000001.jpg")])
    as (Hfolder & _ & _ & Hall);
    [by vm_compute | by vm_compute | by vm_compute | by vm_compute | done
    | exact Hrun |].
  split; [exact Hfolder | exact Hall].
Defined.

Lemma eval_gt_folder_empty_witness :
  eval_gt_folder raw_filter raw_decode raw_encode raw_size fs_eval
    (lit "gt") (lit "empty") = (fs_eval, [], Raise IndexError).
Proof.
  apply (eval_gt_folder_empty raw_filter raw_decode raw_encode raw_size
           fs_eval (lit "gt") (lit "empty")).
  left. by vm_compute.
Defined.

Lemma endswith_spec (s suffix : pystr) :
  endswith s suffix = true ↔ ∃ rest, s = rest ++ suffix.
Proof.
  unfold endswith. rewrite bool_decide_eq_true. split.
  - intros [_ Hdrop]. exists (take (length s - length suffix) s).
    rewrite <- Hdrop at 2. by rewrite take_drop.
  - intros [rest ->]. rewrite length_app. split; [lia |].
    replace (length rest + length suffix - length suffix) with (length rest)
      by lia.
    by rewrite drop_app_length.
Qed.

(** X23.  The entry point removes one trailing slash of a folder argument
    and no more: a path that ends in two slashes keeps one, and a path
    that ends in none is left as it is. *)
Theorem strip_trailing_slash_once (folder : pystr) :
  strip_trailing_slash (folder ++ lit "/") = folder ∧
  strip_trailing_slash (folder ++ lit "//") = folder ++ lit "/" ∧
  ((∀ rest, folder ≠ rest ++ lit "/") → strip_trailing_slash folder = folder).
Proof.
  assert (∀ s, strip_trailing_slash (s ++ lit "/") = s) as Hone.
  { intros s. unfold strip_trailing_slash.
    rewrite (proj2 (endswith_spec _ _)) by by exists s.
    rewrite length_app. change (length (lit "/")) with 1.
    replace (length s + 1 - 1) with (length s) by lia.
    by rewrite take_app_length. }
  split_and!; [apply Hone | |].
  - change (lit "//") with (lit "/" ++ lit "/").
    by rewrite app_assoc, Hone.
  - intros Hnone. unfold strip_trailing_slash.
    destruct (endswith folder (lit "/")) eqn:Hends; [|done].
    apply endswith_spec in Hends as [rest ->]. by destruct (Hnone rest).
Qed.

(** ** MetricEngine *)

Section MetricEdgeFacts.
Context {R : Type} `{TorchNum R} {T : Type}.
Variable PeakSignalNoiseRatio : list T → list T → R.
Variable StructuralSimilarityIndexMeasure : list T → list T → R.
Variable LearnedPerceptualImagePatchSimilarity : list T → list T → R.
Variable tensor_mul tensor_sub : list T → Z → list T.

(** X24.  Over a dataset without samples, which is what pairing leaves
    when no prediction has a ground truth, no batch is drawn and each
    paired metric raises [ZeroDivisionError] on [0 / 0]. *)
Theorem paired_metrics_empty (dataloader : DataLoader T) :
  dataset dataloader = [] →
  psnr PeakSignalNoiseRatio dataloader = Raise ZeroDivisionError ∧
  ssim StructuralSimilarityIndexMeasure dataloader
    = Raise ZeroDivisionError ∧
  lpips LearnedPerceptualImagePatchSimilarity tensor_mul tensor_sub
    dataloader = Raise ZeroDivisionError.
Proof.
  intros Hnil. unfold psnr, ssim, lpips, DataLoader_iter.
  by rewrite Hnil.
Qed.
End MetricEdgeFacts.

Lemma paired_metrics_empty_witness :
  snd (prepare_data [gt_B] [pred_A; pred_C]) = Ok [] ∧
  psnr metric_08_05 (eval_dataloader (@nil (nat * nat)) 16)
    = Raise ZeroDivisionError ∧
  ssim metric_08_05 (eval_dataloader (@nil (nat * nat)) 16)
    = Raise ZeroDivisionError ∧
  lpips metric_08_05 no_scaling no_scaling
    (eval_dataloader (@nil (nat * nat)) 16) = Raise ZeroDivisionError.
Proof.
  split; [by vm_compute |].
  apply (paired_metrics_empty metric_08_05 metric_08_05 metric_08_05
           no_scaling no_scaling (eval_dataloader (@nil (nat * nat)) 16)).
  reflexivity.
Defined.
